(** * space-cloud: the config synchronisation manager and the config store

    A shallow embedding of [utils/syncman/operations.go] and
    [config/store.go].

    Conventions of the embedding.
    - A Go [error] is represented by its message; [None] is the nil error.
    - A Go pointer is an [option]: [None] is the nil pointer.  Dereferencing
      nil, indexing out of range and a failed type assertion are run-time
      panics, and a panic is an outcome of a run ([Panicked]).
    - The operations talk to collaborators that these sources only call (the
      raft handle, the admin manager, the HTTP client, the file system).
      Every such call is recorded as an [event], and the collaborator's
      answer is a function of the events recorded so far, so a collaborator
      may answer differently at each call.
    - The mutex is modelled by the [EvLock] and [EvUnlock] events; runs are
      sequential.
    - The callback through which the replicated log rewrites the document is
      not part of these sources: in a run the manager changes only where an
      operation assigns to it. *)

From Stdlib Require Import String Ascii List ZArith Bool Lia.
From stdpp Require Import base option list gmap strings.
Import ListNotations.

Local Open Scope string_scope.
Local Open Scope list_scope.

(** ** Go values *)

Definition error := string.
Definition bytes := list Byte.byte.

(** What [encoding/json] decodes into an [interface{}].  A number is a
    finite [float64], mantissa times two to the exponent. *)
Local Unset Elimination Schemes.
Inductive jvalue :=
| JNull
| JBool (b : bool)
| JNumber (mantissa exponent : Z)
| JString (s : string)
| JArray (l : list jvalue)
| JObject (m : gmap string jvalue).
Local Set Elimination Schemes.

(** The outcome of a run: a normal return or a run-time panic. *)
Inductive result (A : Type) :=
| Done (a : A)
| Panicked (msg : string).
Arguments Done {A} a.
Arguments Panicked {A} msg.

Definition nilDereference : string :=
  "runtime error: invalid memory address or nil pointer dereference".
Definition indexOutOfRange : string := "runtime error: index out of range".
Definition interfaceConversion : string := "interface conversion".

(** ** Package [strings] *)

(** [strings.HasSuffix]:
    [len(s) >= len(suffix) && s[len(s)-len(suffix):] == suffix]. *)
Definition strings_HasSuffix (s suffix : string) : bool :=
  (String.length suffix <=? String.length s)%nat
  && String.eqb
       (substring (String.length s - String.length suffix)
                  (String.length suffix) s)
       suffix.

(** [strings.Split s sep] for a non-empty [sep] (the sources pass [":"]).
    [skip] counts the bytes of a separator that was just matched and is being
    stepped over. *)
Fixpoint split_from (sep : string) (skip : nat) (s : string) : list string :=
  match s with
  | EmptyString => [EmptyString]
  | String c s' =>
      match skip with
      | S k => split_from sep k s'
      | O =>
          if String.prefix sep s
          then EmptyString :: split_from sep (String.length sep - 1) s'
          else match split_from sep 0 s' with
               | piece :: pieces => String c piece :: pieces
               | [] => [String c EmptyString]
               end
      end
  end.

Definition strings_Split (s sep : string) : list string := split_from sep 0 s.

(** The prefix of an address before its first colon: the address with any
    port suffix stripped. *)
Fixpoint beforeColon (addr : string) : string :=
  match addr with
  | EmptyString => EmptyString
  | String c rest =>
      if Ascii.eqb c ":" then EmptyString else String c (beforeColon rest)
  end.

(** [s] without its first [n] bytes: [s[n:]], or empty when [s] is
    shorter. *)
Fixpoint dropString (n : nat) (s : string) : string :=
  match n, s with
  | O, _ => s
  | S _, EmptyString => EmptyString
  | S n', String _ s' => dropString n' s'
  end.

(** [s] ends in [suffix]. *)
Definition endsWith (s suffix : string) : Prop :=
  exists front, s = front +:+ suffix.

(** ** Package [config] (type declarations are not part of these sources) *)

Module config.

(** The configuration types.  The sources use [Project.ID] and
    [Config.Projects] (a slice of project pointers) and nothing else of
    their contents. *)
Class Types := {
  Static : Type;
  OperationConfig : Type;
  Deploy : Type;
  Project : Type;
  Config : Type;
  ID : Project -> string;
  Projects : Config -> list (option Project);
}.

End config.

(** ** Package [utils]: the command kinds *)

Module utils.

(** Modelled from the spec: the [RaftCommand...] constants of package
    [utils] are not part of these sources; section 3 lists the six kinds. *)
Inductive RaftCommandKind :=
| RaftCommandSetStatic
| RaftCommandAddInternalRouteOperation
| RaftCommandSetOperation
| RaftCommandSet
| RaftCommandSetDeploy
| RaftCommandDelete.

End utils.

(** ** Package [model]: the replicated command *)

Module model.

(** Modelled from the spec: the declaration of [model.RaftCommand] is not
    part of these sources; it has the kind and the payloads of section 3,
    under the field names that the composite literals of operations.go use.
    A field left out of a composite literal has its zero value: nil, or the
    empty string. *)
Record RaftCommand `{config.Types} := {
  Kind : utils.RaftCommandKind;
  Static : option config.Static;
  Operation : option config.OperationConfig;
  Project : option config.Project;
  Deploy : option config.Deploy;
  ID : string;
}.

End model.

(** ** Packages [net/http], [encoding/json], [yaml] *)

Module http.

(** [http.Header] maps a key to the values added under it; one entry per
    [Add], in order. *)
Record Request := {
  Method : string;
  URL : string;
  Header : list (string * string);
  Body : bytes;
}.

Record Response := {
  StatusCode : Z;
  RespBody : bytes;
}.

Definition StatusOK : Z := 200.

(** [req.Header.Add(key, value)]. *)
Definition Header_Add (req : Request) (key value : string) : Request :=
  {| Method := Method req; URL := URL req;
     Header := Header req ++ [(key, value)]; Body := Body req |}.

End http.

(** The pure library functions the operations call.  [Marshal] returns the
    Go pair (data, err).  [NewRequest_check] is the validation that
    [http.NewRequest] performs on the method and the URL. *)
Class Library `{config.Types} := {
  json_Marshal_Static : option config.Static -> bytes * option error;
  json_Marshal_OperationConfig :
    option config.OperationConfig -> bytes * option error;
  json_Marshal_Project : option config.Project -> bytes * option error;
  json_Marshal_Deploy : option config.Deploy -> bytes * option error;
  json_Marshal_RaftCommand : model.RaftCommand -> bytes * option error;
  json_Marshal_Config : option config.Config -> bytes * option error;
  yaml_Marshal_Config : option config.Config -> bytes * option error;
  json_Decode : bytes -> gmap string jvalue + error;
  NewRequest_check : string -> string -> option error;
}.

(** ** Events and collaborators *)

Section Events.
Context `{T : config.Types}.

Inductive event :=
| EvLock
| EvUnlock
| EvRLock
| EvRUnlock
| EvVerifyLeader
| EvLeader
| EvApply (data : bytes) (timeout : Z)
| EvValidateSyncOperation (current : option config.Config)
                          (proposed : option config.Project)
| EvDo (req : http.Request)
| EvNumNodes
| EvLogError (message : string)
| EvWriteFile (path : string) (data : bytes) (perm : Z).

(** The collaborators.  Each answer depends on the events recorded before
    the call. *)
Class Collaborators := {
  raft_VerifyLeader : list event -> option error;
  raft_Leader : list event -> string;
  raft_Apply : list event -> bytes -> Z -> option error;
  adminMan_ValidateSyncOperation :
    list event -> option config.Config -> option config.Project -> bool;
  client_Do : list event -> http.Request -> http.Response + error;
  list_NumNodes : list event -> Z;
  ioutil_WriteFile : list event -> string -> bytes -> Z -> option error;
}.

(** The part of [SyncManager] that the operations read and write. *)
Record SyncManager := {
  projectConfig : option config.Config;
}.

Record state := {
  mgr : SyncManager;
  history : list event;
}.

Definition record (e : event) (s : state) : state :=
  {| mgr := mgr s; history := history s ++ [e] |}.

(** ** The monad of runs *)

Definition M (A : Type) : Type := state -> result A * state.

Definition ret {A} (a : A) : M A := fun s => (Done a, s).

Definition bind {A B} (m : M A) (k : A -> M B) : M B :=
  fun s =>
    match m s with
    | (Done a, s') => k a s'
    | (Panicked msg, s') => (Panicked msg, s')
    end.

Definition panic {A} (msg : string) : M A := fun s => (Panicked msg, s).

(** A call to a collaborator: the answer is computed from the history, then
    the call is recorded. *)
Definition call {A} (e : event) (answer : list event -> A) : M A :=
  fun s => (Done (answer (history s)), record e s).

(** An event with no answer, such as taking the lock. *)
Definition emit (e : event) : M unit := fun s => (Done tt, record e s).

(** [s.lock.Lock(); defer s.lock.Unlock()]: the deferred unlock runs on
    every exit, a panic included. *)
Definition locked {A} (body : M A) : M A :=
  fun s => let (r, s') := body (record EvLock s) in (r, record EvUnlock s').

Definition rlocked {A} (body : M A) : M A :=
  fun s => let (r, s') := body (record EvRLock s) in (r, record EvRUnlock s').

Definition get_projectConfig : M (option config.Config) :=
  fun s => (Done (projectConfig (mgr s)), s).

Definition set_projectConfig (c : option config.Config) : M unit :=
  fun s => (Done tt, {| mgr := {| projectConfig := c |};
                        history := history s |}).

End Events.

Declare Scope run_scope.
Delimit Scope run_scope with run.
Notation "x <- c ;; k" := (bind c (fun x => k))
  (at level 100, c at next level, right associativity) : run_scope.
Notation "c ;;; k" := (bind c (fun _ => k))
  (at level 100, right associativity) : run_scope.

(** ** Package [syncman] *)

Section Operations.
Context `{T : config.Types} {L : Library} {C : Collaborators}.
Local Open Scope run_scope.

(** *** Calls to the collaborators *)

Definition VerifyLeader : M (option error) :=
  call EvVerifyLeader raft_VerifyLeader.

Definition Leader : M string := call EvLeader raft_Leader.

Definition Apply (data : bytes) (timeout : Z) : M (option error) :=
  call (EvApply data timeout) (fun h => raft_Apply h data timeout).

Definition ValidateSyncOperation (current : option config.Config)
    (proposed : option config.Project) : M bool :=
  call (EvValidateSyncOperation current proposed)
       (fun h => adminMan_ValidateSyncOperation h current proposed).

Definition Do (req : http.Request) : M (http.Response + error) :=
  call (EvDo req) (fun h => client_Do h req).

Definition NumNodes : M Z := call EvNumNodes list_NumNodes.

(** *** Library calls that can panic *)

(** [bytes.NewBuffer(data)]: a buffer, never nil. *)
Definition bytes_NewBuffer (data : bytes) : option bytes := Some data.

(** [http.NewRequest(method, url, body)] as [makeRequest] calls it: [body]
    is its parameter [data], of static type [*bytes.Buffer], converted to
    [io.Reader].  An interface built from a pointer is not the nil interface,
    even if the pointer is nil.  So, after the method and the URL are
    validated, [NewRequest] finds [body != nil], type-switches on it and, in
    the [*bytes.Buffer] case, calls [Len] to set the content length, which
    dereferences the pointer.  An empty method stands for GET. *)
Definition http_NewRequest (method url : string) (body : option bytes)
    : M (http.Request + error) :=
  match NewRequest_check method url with
  | Some err => ret (inr err)
  | None =>
      match body with
      | None => panic nilDereference
      | Some b =>
          ret (inl {| http.Method := if String.eqb method "" then "GET"
                                     else method;
                      http.URL := url;
                      http.Header := [];
                      http.Body := b |})
      end
  end.

(** [v.(string)] on an [interface{}] read from a map: a missing key and a
    JSON null are both the nil interface. *)
Definition assert_string (v : option jvalue) : M string :=
  match v with
  | Some (JString s) => ret s
  | _ => panic interfaceConversion
  end.

(** [l[0]]. *)
Definition index0 (l : list string) : M string :=
  match l with
  | x :: _ => ret x
  | [] => panic indexOutOfRange
  end.

(** *** operations.go *)

Definition SetGlobalConfig (c : option config.Config) : M unit :=
  emit EvLock ;;;
  set_projectConfig c ;;;
  emit EvUnlock.

Definition GetGlobalConfig : M (option config.Config) :=
  rlocked get_projectConfig.

Definition makeRequest (method token url : string) (data : option bytes)
    : M (option error) :=
  r <- http_NewRequest method url data ;;
  match r with
  | inr err => ret (Some err)
  | inl req =>
      let req := http.Header_Add req "Authorization" ("Bearer " +:+ token) in
      r <- Do req ;;
      match r with
      | inr err => ret (Some err)
      | inl resp =>
          match json_Decode (http.RespBody resp) with
          | inr err => ret (Some err)
          | inl m =>
              if negb (http.StatusCode resp =? http.StatusOK)%Z
              then msg <- assert_string (m !! "error") ;; ret (Some msg)
              else ret None
          end
      end
  end.

Definition SetStaticConfig (token : string) (static : option config.Static)
    : M (option error) :=
  locked (
    verr <- VerifyLeader ;;
    if bool_decide (verr <> None) then
      let '(data, _) := json_Marshal_Static static in
      leader <- Leader ;;
      addr <- index0 (strings_Split leader ":") ;;
      makeRequest "POST" token
        ("http://" +:+ addr +:+ ":4122/v1/api/config/static")
        (bytes_NewBuffer data)
    else
      let c := {| model.Kind := utils.RaftCommandSetStatic;
                  model.Static := static;
                  model.Operation := None; model.Project := None;
                  model.Deploy := None; model.ID := "" |} in
      let '(data, _) := json_Marshal_RaftCommand c in
      Apply data 0).

Definition AddInternalRoutes (token : string) (static : option config.Static)
    : M (option error) :=
  locked (
    verr <- VerifyLeader ;;
    if bool_decide (verr <> None) then
      let '(data, _) := json_Marshal_Static static in
      leader <- Leader ;;
      addr <- index0 (strings_Split leader ":") ;;
      makeRequest "POST" token
        ("http://" +:+ addr +:+ ":4122/v1/api/config/static/internal")
        (bytes_NewBuffer data)
    else
      let c := {| model.Kind := utils.RaftCommandAddInternalRouteOperation;
                  model.Static := static;
                  model.Operation := None; model.Project := None;
                  model.Deploy := None; model.ID := "" |} in
      let '(data, _) := json_Marshal_RaftCommand c in
      Apply data 0).

Definition SetOperationModeConfig (token : string)
    (op : option config.OperationConfig) : M (option error) :=
  locked (
    verr <- VerifyLeader ;;
    if bool_decide (verr <> None) then
      let '(data, _) := json_Marshal_OperationConfig op in
      leader <- Leader ;;
      addr <- index0 (strings_Split leader ":") ;;
      makeRequest "POST" token
        ("http://" +:+ addr +:+ ":4122/v1/api/config/operation")
        (bytes_NewBuffer data)
    else
      let c := {| model.Kind := utils.RaftCommandSetOperation;
                  model.Static := None;
                  model.Operation := op; model.Project := None;
                  model.Deploy := None; model.ID := "" |} in
      let '(data, _) := json_Marshal_RaftCommand c in
      Apply data 0).

Definition SetProjectConfig (token : string)
    (project : option config.Project) : M (option error) :=
  locked (
    verr <- VerifyLeader ;;
    if bool_decide (verr <> None) then
      let '(data, _) := json_Marshal_Project project in
      leader <- Leader ;;
      addr <- index0 (strings_Split leader ":") ;;
      makeRequest "POST" token
        ("http://" +:+ addr +:+ ":4122/v1/api/config/projects")
        (bytes_NewBuffer data)
    else
      current <- get_projectConfig ;;
      ok <- ValidateSyncOperation current project ;;
      if negb ok then ret (Some "Please upgrade your instance")
      else
        match project with
        | None => panic nilDereference
        | Some p =>
            let c := {| model.Kind := utils.RaftCommandSet;
                        model.Static := None; model.Operation := None;
                        model.Project := project;
                        model.Deploy := None;
                        model.ID := config.ID p |} in
            let '(data, err) := json_Marshal_RaftCommand c in
            match err with
            | Some e => ret (Some e)
            | None => Apply data 0
            end
        end).

Definition SetDeployConfig (token : string) (deploy : option config.Deploy)
    : M (option error) :=
  locked (
    verr <- VerifyLeader ;;
    if bool_decide (verr <> None) then
      let '(data, _) := json_Marshal_Deploy deploy in
      leader <- Leader ;;
      addr <- index0 (strings_Split leader ":") ;;
      makeRequest "POST" token
        ("http://" +:+ addr +:+ ":4122/v1/api/config/deploy")
        (bytes_NewBuffer data)
    else
      let c := {| model.Kind := utils.RaftCommandSetDeploy;
                  model.Static := None; model.Operation := None;
                  model.Project := None;
                  model.Deploy := deploy; model.ID := "" |} in
      let '(data, _) := json_Marshal_RaftCommand c in
      Apply data 0).

Definition DeleteConfig (token projectID : string) : M (option error) :=
  locked (
    verr <- VerifyLeader ;;
    if bool_decide (verr <> None) then
      leader <- Leader ;;
      addr <- index0 (strings_Split leader ":") ;;
      makeRequest "DELETE" token
        ("http://" +:+ addr +:+ ":4122/v1/api/config/" +:+ projectID)
        None
    else
      let c := {| model.Kind := utils.RaftCommandDelete;
                  model.Static := None; model.Operation := None;
                  model.Project := None; model.Deploy := None;
                  model.ID := projectID |} in
      let '(data, _) := json_Marshal_RaftCommand c in
      Apply data 0).

(** The loop of [GetConfig]: [for _, p := range ...Projects]. *)
Fixpoint rangeProjects (projectID : string)
    (ps : list (option config.Project))
    : M (option config.Project * option error) :=
  match ps with
  | [] => ret (None, Some "Given project is not present in state")
  | p :: rest =>
      match p with
      | None => panic nilDereference
      | Some project =>
          if String.eqb projectID (config.ID project)
          then ret (p, None)
          else rangeProjects projectID rest
      end
  end.

Definition GetConfig (projectID : string)
    : M (option config.Project * option error) :=
  locked (
    current <- get_projectConfig ;;
    match current with
    | None => panic nilDereference
    | Some conf => rangeProjects projectID (config.Projects conf)
    end).

Definition GetClusterSize : M Z := NumNodes.

(** *** store.go *)

(** [helpers.Logger.LogError(requestID, message, nil, nil)], of the external
    logging library: it logs the message and hands back an error that carries
    it. *)
Definition Logger_LogError (message : string) : M (option error) :=
  call (EvLogError message) (fun _ => Some message).

Definition WriteFile (path : string) (data : bytes) (perm : Z)
    : M (option error) :=
  call (EvWriteFile path data perm)
       (fun h => ioutil_WriteFile h path data perm).

(** The statements after the [if] chain of [StoreConfigToFile]. *)
Definition writeMarshalled (path : string) (r : bytes * option error)
    : M (option error) :=
  let '(data, err) := r in
  match err with
  | Some e => ret (Some e)
  | None => WriteFile path data 420 (* 0644 *)
  end.

Definition StoreConfigToFile (conf : option config.Config) (path : string)
    : M (option error) :=
  if strings_HasSuffix path ".yaml" then
    writeMarshalled path (yaml_Marshal_Config conf)
  else if strings_HasSuffix path ".json" then
    writeMarshalled path (json_Marshal_Config conf)
  else
    Logger_LogError ("Invalid config file type (" +:+ path +:+ ") provided").

(** *** The six mutation operations, as one family *)

Inductive mutation :=
| MSetStaticConfig (static : option config.Static)
| MAddInternalRoutes (static : option config.Static)
| MSetOperationModeConfig (op : option config.OperationConfig)
| MSetProjectConfig (project : option config.Project)
| MSetDeployConfig (deploy : option config.Deploy)
| MDeleteConfig (projectID : string).

Definition perform (token : string) (m : mutation) : M (option error) :=
  match m with
  | MSetStaticConfig static => SetStaticConfig token static
  | MAddInternalRoutes static => AddInternalRoutes token static
  | MSetOperationModeConfig op => SetOperationModeConfig token op
  | MSetProjectConfig project => SetProjectConfig token project
  | MSetDeployConfig deploy => SetDeployConfig token deploy
  | MDeleteConfig projectID => DeleteConfig token projectID
  end.

(** What each operation hands to [makeRequest] when it forwards. *)
Definition forwardMethod (m : mutation) : string :=
  match m with
  | MDeleteConfig _ => "DELETE"
  | _ => "POST"
  end.

Definition forwardPath (m : mutation) : string :=
  match m with
  | MSetStaticConfig _ => "static"
  | MAddInternalRoutes _ => "static/internal"
  | MSetOperationModeConfig _ => "operation"
  | MSetProjectConfig _ => "projects"
  | MSetDeployConfig _ => "deploy"
  | MDeleteConfig projectID => projectID
  end.

Definition forwardURL (host : string) (m : mutation) : string :=
  "http://" +:+ host +:+ ":4122/v1/api/config/" +:+ forwardPath m.

Definition forwardBody (m : mutation) : option bytes :=
  match m with
  | MSetStaticConfig static => Some (fst (json_Marshal_Static static))
  | MAddInternalRoutes static => Some (fst (json_Marshal_Static static))
  | MSetOperationModeConfig op => Some (fst (json_Marshal_OperationConfig op))
  | MSetProjectConfig project => Some (fst (json_Marshal_Project project))
  | MSetDeployConfig deploy => Some (fst (json_Marshal_Deploy deploy))
  | MDeleteConfig _ => None
  end.

(** The kind of command each operation is meant to replicate, and what it
    means for a command to carry the caller's payload. *)
Definition kindOf (m : mutation) : utils.RaftCommandKind :=
  match m with
  | MSetStaticConfig _ => utils.RaftCommandSetStatic
  | MAddInternalRoutes _ => utils.RaftCommandAddInternalRouteOperation
  | MSetOperationModeConfig _ => utils.RaftCommandSetOperation
  | MSetProjectConfig _ => utils.RaftCommandSet
  | MSetDeployConfig _ => utils.RaftCommandSetDeploy
  | MDeleteConfig _ => utils.RaftCommandDelete
  end.

Definition carries (c : model.RaftCommand) (m : mutation) : Prop :=
  match m with
  | MSetStaticConfig static => model.Static c = static
  | MAddInternalRoutes static => model.Static c = static
  | MSetOperationModeConfig op => model.Operation c = op
  | MSetProjectConfig project =>
      model.Project c = project
  | MSetDeployConfig deploy => model.Deploy c = deploy
  | MDeleteConfig projectID => model.ID c = projectID
  end.

Definition isSetProject (m : mutation) : bool :=
  match m with
  | MSetProjectConfig _ => true
  | _ => false
  end.

Definition isApply (e : event) : bool :=
  match e with
  | EvApply _ _ => true
  | _ => false
  end.

(** *** Vocabulary of the statements *)

(** The state once the lock is taken and the raft handle was asked for
    leadership. *)
Definition verified (s : state) : state :=
  record EvVerifyLeader (record EvLock s).

(** The state in which a follower calls [makeRequest]: the raft handle was
    also asked for the leader. *)
Definition asked (s : state) : state := record EvLeader (verified s).

(** The host a follower forwards to. *)
Definition leaderHost (s : state) : string :=
  beforeColon (raft_Leader (history (verified s))).

(** The request [makeRequest] builds from a buffer: the method, the URL,
    the body and one header, the bearer token. *)
Definition requestOf (method token url : string) (b : bytes)
    : http.Request :=
  {| http.Method := if String.eqb method "" then "GET" else method;
     http.URL := url;
     http.Header := [("Authorization", "Bearer " +:+ token)];
     http.Body := b |}.

(** The command [c] is of the kind of [m] and carries its payload. *)
Definition builds (m : mutation) (c : model.RaftCommand) : Prop :=
  model.Kind c = kindOf m /\ carries c m.

(** [perform token m] started in [s] hands the marshalled [c] to [Apply]
    with timeout 0, once, and returns the answer of [Apply]. *)
Definition submits (token : string) (m : mutation) (s : state)
    (c : model.RaftCommand) : Prop :=
  exists before,
    Forall (fun e => isApply e = false) before
    /\ history (snd (perform token m s))
       = history s ++ before
         ++ [EvApply (fst (json_Marshal_RaftCommand c)) 0; EvUnlock]
    /\ fst (perform token m s)
       = Done (raft_Apply (history s ++ before)
                 (fst (json_Marshal_RaftCommand c)) 0).

(** The gate of [SetProjectConfig]: the project is there and the admin
    manager lets it through.  The other operations have no gate. *)
Definition gateOpen (m : mutation) (s : state) : Prop :=
  match m with
  | MSetProjectConfig project =>
      project <> None
      /\ adminMan_ValidateSyncOperation (history (verified s))
           (projectConfig (mgr s)) project = true
  | _ => True
  end.

(** What [GetConfig] returns when no project matches. *)
Definition notPresent : option config.Project * option error :=
  (None, Some "Given project is not present in state").

(** The message for a path that ends neither in [.yaml] nor in [.json]. *)
Definition invalidFileType (path : string) : string :=
  "Invalid config file type (" +:+ path +:+ ") provided".

(** No project pointer of the document is nil. *)
Definition populated (conf : config.Config) : Prop :=
  Forall (fun p => p <> None) (config.Projects conf).

(** An entry that the loop of [GetConfig] steps over: a project of another
    identifier. *)
Definition steppedOver (projectID : string) (p : option config.Project)
    : Prop :=
  exists project, p = Some project /\ config.ID project <> projectID.

(** Events of the mutex. *)
Definition isLockEvent (e : event) : bool :=
  match e with
  | EvLock | EvUnlock | EvRLock | EvRUnlock => true
  | _ => false
  end.

(** Events of forwarding: asking for the leader, sending a request. *)
Definition isForwardEvent (e : event) : bool :=
  match e with
  | EvLeader | EvDo _ => true
  | _ => false
  end.

(** What a leader does between the leadership check and the unlock: it
    asks the admin manager, or calls [Apply] with timeout 0. *)
Definition leaderStep (e : event) : bool :=
  match e with
  | EvApply _ timeout => (timeout =? 0)%Z
  | EvValidateSyncOperation _ _ => true
  | _ => false
  end.

(** The command [SetProjectConfig] builds from a project. *)
Definition projectCommand (p : config.Project) : model.RaftCommand :=
  {| model.Kind := utils.RaftCommandSet;
     model.Static := None; model.Operation := None;
     model.Project := Some p; model.Deploy := None;
     model.ID := config.ID p |}.

End Operations.

(** ** A concrete cluster, for running the operations *)

Module Scenario.

Record project := { pid : string; secret : string }.

Definition types : config.Types :=
  {| config.Static := string;
     config.OperationConfig := Z;
     config.Deploy := string;
     config.Project := project;
     config.Config := list (option project);
     config.ID := pid;
     config.Projects := fun c => c |}.

Definition text (s : string) : bytes := list_byte_of_string s.

Definition quote : string := String "034"%char EmptyString.

(** The body [{"error":"not found"}]. *)
Definition bodyNotFound : bytes :=
  text ("{" +:+ quote +:+ "error" +:+ quote +:+ ":"
        +:+ quote +:+ "not found" +:+ quote +:+ "}").

(** The body [{}]. *)
Definition bodyEmptyObject : bytes := text "{}".

(** A decoder that knows the two bodies above. *)
Definition decode (b : bytes) : gmap string jvalue + error :=
  if String.eqb (string_of_list_byte b) (string_of_list_byte bodyNotFound)
  then inl {[ "error" := JString "not found" ]}
  else if String.eqb (string_of_list_byte b) "{}"
  then inl ∅
  else inr "invalid character looking for beginning of value".

Definition kindName (k : utils.RaftCommandKind) : string :=
  match k with
  | utils.RaftCommandSetStatic => "set-static"
  | utils.RaftCommandAddInternalRouteOperation => "add-internal-route"
  | utils.RaftCommandSetOperation => "set-operation"
  | utils.RaftCommandSet => "set"
  | utils.RaftCommandSetDeploy => "set-deploy"
  | utils.RaftCommandDelete => "delete"
  end.

(** A stand-in for the JSON of a command: kind, static, project, deploy and
    identifier, separated by bars. *)
Definition encode (c : @model.RaftCommand types) : bytes :=
  text (kindName (@model.Kind types c)
        +:+ "|" +:+ default "" (@model.Static types c)
        +:+ "|" +:+ from_option pid "" (@model.Project types c)
        +:+ "|" +:+ default "" (@model.Deploy types c)
        +:+ "|" +:+ @model.ID types c).

(** A library whose command encoder fails with [marshalError], if given. *)
Definition library (marshalError : option error) : @Library types :=
  @Build_Library types
    (* json_Marshal_Static *)
    (fun v : option string => (text (default "null" v), None))
    (* json_Marshal_OperationConfig *)
    (fun _ => (text "{}", None))
    (* json_Marshal_Project *)
    (fun v : option project => (text (from_option pid "null" v), None))
    (* json_Marshal_Deploy *)
    (fun v : option string => (text (default "null" v), None))
    (* json_Marshal_RaftCommand *)
    (fun c : @model.RaftCommand types =>
       match marshalError with
       | Some e => ([], Some e)
       | None => (encode c, None)
       end)
    (* json_Marshal_Config *)
    (fun _ => (text "{}", None))
    (* yaml_Marshal_Config *)
    (fun _ => (text "---", None))
    (* json_Decode *)
    decode
    (* NewRequest_check *)
    (fun _ _ => None).

(** Collaborators that give the same answers at every call. *)
Definition collaborators (verify : option error) (leader : string)
    (applied : option error) (accept : bool)
    (answer : http.Response + error) : @Collaborators types :=
  @Build_Collaborators types
    (* raft_VerifyLeader *) (fun _ => verify)
    (* raft_Leader *) (fun _ => leader)
    (* raft_Apply *) (fun _ _ _ => applied)
    (* adminMan_ValidateSyncOperation *) (fun _ _ _ => accept)
    (* client_Do *) (fun _ _ => answer)
    (* list_NumNodes *) (fun _ => 3%Z)
    (* ioutil_WriteFile *) (fun _ _ _ _ => None).

Definition project1 : project := {| pid := "proj1"; secret := "s1" |}.
Definition project2 : project := {| pid := "proj2"; secret := "s2" |}.

Definition start : @state types :=
  @Build_state types
    (@Build_SyncManager types (Some [Some project1; Some project2])) [].

Definition notFound : http.Response + error :=
  inl {| http.StatusCode := 404; http.RespBody := bodyNotFound |}.

Definition unavailable : http.Response + error :=
  inl {| http.StatusCode := 500; http.RespBody := bodyEmptyObject |}.

(** A 200 whose body nevertheless carries an [error] field. *)
Definition okWithError : http.Response + error :=
  inl {| http.StatusCode := 200; http.RespBody := bodyNotFound |}.

(** A follower whose leader sits at [10.0.0.5:7000] and answers [answer]. *)
Definition follower (answer : http.Response + error) : @Collaborators types :=
  collaborators (Some "node is not the leader") "10.0.0.5:7000" None true
    answer.

(** A leader whose log accepts every command and whose admin manager
    answers [accept]. *)
Definition leader (accept : bool) : @Collaborators types :=
  collaborators None "10.0.0.5:7000" None accept notFound.

(** The calls of the runs below. *)
Definition setDeployX : @mutation types :=
  @MSetDeployConfig types (Some "deployX").
Definition setProject1 : @mutation types :=
  @MSetProjectConfig types (Some project1).
Definition setRoutes : @mutation types :=
  @MSetStaticConfig types (Some "routes").

End Scenario.

(** * Properties *)

(** ** The string helpers *)

Lemma split_from_cons (sep : string) (c : ascii) (s : string) :
  split_from sep 0 (String c s)
  = if String.prefix sep (String c s)
    then EmptyString :: split_from sep (String.length sep - 1) s
    else match split_from sep 0 s with
         | piece :: pieces => String c piece :: pieces
         | [] => [String c EmptyString]
         end.
Proof. reflexivity. Qed.

(** [strings.Split] never returns an empty slice: index 0 is in range. *)
Lemma split_from_nonempty (sep : string) (skip : nat) (s : string) :
  split_from sep skip s <> [].
Proof.
  revert skip. induction s as [|c s IH]; intros skip; [easy|].
  destruct skip as [|k]; [|apply IH].
  rewrite split_from_cons.
  destruct (String.prefix sep (String c s)); [easy|].
  destruct (split_from sep 0 s); easy.
Qed.

Lemma prefix_colon (c : ascii) (s : string) :
  String.prefix ":" (String c s) = Ascii.eqb c ":".
Proof.
  change (String.prefix ":" (String c s))
    with (if Ascii.ascii_dec ":" c then String.prefix "" s else false).
  destruct (Ascii.ascii_dec ":" c) as [<-|Hne].
  - destruct s; reflexivity.
  - symmetry. apply Ascii.eqb_neq. congruence.
Qed.

Lemma append_cons (c : ascii) (s1 s2 : string) :
  String c s1 +:+ s2 = String c (s1 +:+ s2).
Proof. reflexivity. Qed.

Lemma beforeColon_cons (c : ascii) (rest : string) :
  beforeColon (String c rest)
  = if Ascii.eqb c ":" then EmptyString else String c (beforeColon rest).
Proof. reflexivity. Qed.

(** The first piece of a split on [":"] is the prefix before the first
    colon. *)
Lemma Split_colon_head (s : string) :
  exists pieces, strings_Split s ":" = beforeColon s :: pieces.
Proof.
  unfold strings_Split. induction s as [|c s [pieces IH]].
  - eexists; reflexivity.
  - rewrite split_from_cons, prefix_colon, beforeColon_cons.
    destruct (Ascii.eqb c ":").
    + eexists; reflexivity.
    + rewrite IH. eexists; reflexivity.
Qed.

Lemma beforeColon_no_colon (addr : string) :
  ~ In ":"%char (list_ascii_of_string (beforeColon addr)).
Proof.
  induction addr as [|c addr IH]; [simpl; tauto|].
  rewrite beforeColon_cons.
  destruct (Ascii.eqb_spec c ":") as [->|Hne]; [simpl; tauto|].
  cbn [list_ascii_of_string In]. intros [Heq|Hin]; [|tauto].
  apply Hne. exact Heq.
Qed.

Lemma beforeColon_prefix (addr : string) :
  addr = beforeColon addr
  \/ exists rest, addr = beforeColon addr +:+ ":" +:+ rest.
Proof.
  induction addr as [|c addr IH]; [left; reflexivity|].
  rewrite beforeColon_cons.
  destruct (Ascii.eqb_spec c ":") as [->|Hne].
  - right. exists addr. reflexivity.
  - destruct IH as [IH|[rest IH]].
    + left. f_equal. exact IH.
    + right. exists rest. rewrite append_cons. f_equal. exact IH.
Qed.

(** [strings.HasSuffix] decides [endsWith]. *)

Lemma length_append (s1 s2 : string) :
  String.length (s1 +:+ s2) = String.length s1 + String.length s2.
Proof.
  induction s1 as [|c s1 IH]; [reflexivity|].
  rewrite append_cons. cbn [String.length]. rewrite IH. reflexivity.
Qed.

Lemma substring_all (s : string) : substring 0 (String.length s) s = s.
Proof.
  induction s as [|c s IH]; [reflexivity|].
  cbn [String.length substring]. rewrite IH. reflexivity.
Qed.

Lemma substring_append (front suffix : string) :
  substring (String.length front) (String.length suffix) (front +:+ suffix)
  = suffix.
Proof.
  induction front as [|c front IH]; [apply substring_all|].
  rewrite append_cons. cbn [String.length substring]. exact IH.
Qed.

Lemma substring_split (s : string) (n : nat) :
  n <= String.length s ->
  s = substring 0 n s +:+ substring n (String.length s - n) s.
Proof.
  revert n. induction s as [|c s IH]; intros n Hn.
  - destruct n; [reflexivity|cbn [String.length] in Hn; lia].
  - destruct n as [|n].
    + rewrite Nat.sub_0_r, substring_all. reflexivity.
    + cbn [String.length] in Hn |- *.
      cbn [substring Nat.sub]. rewrite append_cons.
      rewrite <- IH by lia. reflexivity.
Qed.

Lemma HasSuffix_endsWith (s suffix : string) :
  strings_HasSuffix s suffix = true <-> endsWith s suffix.
Proof.
  unfold strings_HasSuffix, endsWith. rewrite andb_true_iff.
  rewrite Nat.leb_le, String.eqb_eq. split.
  - intros [Hlen Hsub].
    exists (substring 0 (String.length s - String.length suffix) s).
    rewrite (substring_split s (String.length s - String.length suffix))
      at 1 by lia.
    replace (String.length s - (String.length s - String.length suffix))
      with (String.length suffix) by lia.
    rewrite Hsub. reflexivity.
  - intros [front ->]. rewrite length_append. split; [lia|].
    replace (String.length front + String.length suffix
             - String.length suffix) with (String.length front) by lia.
    apply substring_append.
Qed.

(** Two different suffixes of the same length exclude each other. *)
Lemma HasSuffix_exclusive (s suffix other : string) :
  String.length suffix = String.length other ->
  suffix <> other ->
  strings_HasSuffix s suffix = true ->
  strings_HasSuffix s other = false.
Proof.
  unfold strings_HasSuffix. intros Hlen Hne.
  rewrite andb_true_iff, String.eqb_eq, <- Hlen. intros [_ Hsub].
  rewrite Hsub. apply andb_false_iff. right.
  apply String.eqb_neq. exact Hne.
Qed.

Section Properties.
Context `{T : config.Types} {L : Library} {C : Collaborators}.

(** Unfolds an operation down to the calls it makes. *)
Ltac unfold_run :=
  unfold perform, SetStaticConfig, AddInternalRoutes, SetOperationModeConfig,
    SetProjectConfig, SetDeployConfig, DeleteConfig, locked, bind,
    VerifyLeader, Leader, Apply, ValidateSyncOperation, call,
    get_projectConfig.

(** Takes the branch of [VerifyLeader().Error() != nil] that [Hverify]
    names. *)
Ltac take_branch Hverify :=
  rewrite Hverify; cbn [bool_decide decide_rel];
  first [ rewrite bool_decide_eq_true_2 by discriminate
        | rewrite bool_decide_eq_false_2 by (intros H; apply H; reflexivity) ].

Lemma index0_Split_colon (leader : string) :
  index0 (strings_Split leader ":") = ret (beforeColon leader).
Proof. destruct (Split_colon_head leader) as [pieces ->]. reflexivity. Qed.

(** ** [makeRequest] *)

(** [makeRequest] leaves the manager alone and fires at most one
    request. *)
Lemma makeRequest_frame (method token url : string) (data : option bytes)
    (s : state) :
  mgr (snd (makeRequest method token url data s)) = mgr s
  /\ exists evs,
       history (snd (makeRequest method token url data s)) = history s ++ evs
       /\ (evs = [] \/ exists req, evs = [EvDo req]).
Proof.
  unfold makeRequest, bind, http_NewRequest, Do, call, ret, panic.
  destruct (NewRequest_check method url); simpl.
  { split; [reflexivity|]. exists []. rewrite app_nil_r. auto. }
  destruct data as [b|]; simpl.
  2:{ split; [reflexivity|]. exists []. rewrite app_nil_r. auto. }
  destruct (client_Do _ _) as [resp|err]; simpl.
  2:{ split; [reflexivity|]. eexists; split; [reflexivity|]. eauto. }
  destruct (json_Decode _) as [m|err]; simpl.
  2:{ split; [reflexivity|]. eexists; split; [reflexivity|]. eauto. }
  destruct (negb _); simpl.
  2:{ split; [reflexivity|]. eexists; split; [reflexivity|]. eauto. }
  unfold assert_string.
  destruct (m !! "error") as [[]|]; simpl;
    (split; [reflexivity|]; eexists; split; [reflexivity|]; eauto).
Qed.

(** ** The forwarding branch *)

Lemma unlock_after {A} (run : result A * state) (e : event) :
  (let (r, s') := run in (r, record e s')) = (fst run, record e (snd run)).
Proof. destruct run; reflexivity. Qed.

(** Every operation, run by a follower, is its [makeRequest] call between
    the lock and the unlock. *)
Lemma perform_not_leader (token : string) (m : mutation) (s : state)
    (e : error) :
  raft_VerifyLeader (history (record EvLock s)) = Some e ->
  perform token m s
  = (fst (makeRequest (forwardMethod m) token
            (forwardURL (leaderHost s) m) (forwardBody m) (asked s)),
     record EvUnlock
       (snd (makeRequest (forwardMethod m) token
               (forwardURL (leaderHost s) m) (forwardBody m) (asked s)))).
Proof.
  intros Hverify.
  destruct m; unfold_run; take_branch Hverify.
  all: try destruct (json_Marshal_Static _) as [data merr] eqn:Hm.
  all: try destruct (json_Marshal_OperationConfig _) as [data merr] eqn:Hm.
  all: try destruct (json_Marshal_Project _) as [data merr] eqn:Hm.
  all: try destruct (json_Marshal_Deploy _) as [data merr] eqn:Hm.
  all: rewrite index0_Split_colon; unfold ret; cbn [forwardMethod forwardBody].
  all: try rewrite Hm; cbn [fst].
  all: exact (unlock_after _ _).
Qed.

(** ** The leader branch *)

(** The five operations without a validator build their command, marshal it
    and hand whatever bytes came back to [Apply]. *)
Lemma perform_leader (token : string) (m : mutation) (s : state) :
  raft_VerifyLeader (history (record EvLock s)) = None ->
  isSetProject m = false ->
  exists c,
    model.Kind c = kindOf m
    /\ carries c m
    /\ perform token m s
       = (Done (raft_Apply (history (verified s))
                  (fst (json_Marshal_RaftCommand c)) 0),
          record EvUnlock
            (record (EvApply (fst (json_Marshal_RaftCommand c)) 0)
               (verified s))).
Proof.
  intros Hverify Hm.
  destruct m; try discriminate Hm.
  all: unfold perform, SetStaticConfig, AddInternalRoutes,
    SetOperationModeConfig, SetDeployConfig, DeleteConfig.
  all: match goal with
       | |- context [json_Marshal_RaftCommand ?built] => exists built
       end.
  all: split; [reflexivity|split; [reflexivity|]].
  all: unfold_run; take_branch Hverify.
  all: destruct (json_Marshal_RaftCommand _) as [data merr]; reflexivity.
Qed.

(** [SetProjectConfig] on the leader, case by case. *)
Lemma SetProjectConfig_leader (token : string)
    (project : option config.Project) (s : state) :
  raft_VerifyLeader (history (record EvLock s)) = None ->
  let current := projectConfig (mgr s) in
  let consulted :=
    record (EvValidateSyncOperation current project) (verified s) in
  SetProjectConfig token project s
  = if adminMan_ValidateSyncOperation (history (verified s)) current project
    then
      match project with
      | None => (Panicked nilDereference, record EvUnlock consulted)
      | Some p =>
          let c := {| model.Kind := utils.RaftCommandSet;
                      model.Static := None; model.Operation := None;
                      model.Project := project; model.Deploy := None;
                      model.ID := config.ID p |} in
          match json_Marshal_RaftCommand c with
          | (_, Some e) => (Done (Some e), record EvUnlock consulted)
          | (data, None) =>
              (Done (raft_Apply (history consulted) data 0),
               record EvUnlock (record (EvApply data 0) consulted))
          end
      end
    else (Done (Some "Please upgrade your instance"),
          record EvUnlock consulted).
Proof.
  intros Hverify current consulted.
  unfold_run; take_branch Hverify.
  cbn [history mgr record].
  fold current.
  change (adminMan_ValidateSyncOperation
            ((history s ++ [EvLock]) ++ [EvVerifyLeader]) current project)
    with (adminMan_ValidateSyncOperation (history (verified s))
            current project).
  destruct (adminMan_ValidateSyncOperation _ _ _); cbn [negb].
  2: reflexivity.
  destruct project as [p|]; [|reflexivity].
  destruct (json_Marshal_RaftCommand _) as [data [e|]]; reflexivity.
Qed.

Lemma history_record (e : event) (s : state) :
  history (record e s) = history s ++ [e].
Proof. reflexivity. Qed.

(** ** Claims about the mutation operations *)

(** C1.  When [VerifyLeader] reports an error, each of the six mutation
    operations returns the outcome of its one [makeRequest] call and leaves
    the manager (and so the configuration document) as it was.  Between the
    lock and the unlock it asks the raft handle for leadership and for the
    leader and sends at most one HTTP request; it makes no [Apply] call. *)
Theorem not_leader_only_forwards (token : string) (m : mutation)
    (s : state) (e : error) :
  raft_VerifyLeader (history (record EvLock s)) = Some e ->
  fst (perform token m s)
  = fst (makeRequest (forwardMethod m) token
           (forwardURL (leaderHost s) m) (forwardBody m) (asked s))
  /\ mgr (snd (perform token m s)) = mgr s
  /\ exists sent,
       (sent = [] \/ exists req, sent = [EvDo req])
       /\ history (snd (perform token m s))
          = history s ++ [EvLock; EvVerifyLeader; EvLeader] ++ sent
            ++ [EvUnlock]
       /\ Forall (fun ev => isApply ev = false)
            ([EvLock; EvVerifyLeader; EvLeader] ++ sent ++ [EvUnlock]).
Proof.
  intros Hverify. rewrite (perform_not_leader token m s e Hverify).
  cbn [fst snd].
  destruct (makeRequest_frame (forwardMethod m) token
              (forwardURL (leaderHost s) m) (forwardBody m) (asked s))
    as [Hmgr [sent [Hhist Hsent]]].
  split; [reflexivity|]. split; [exact Hmgr|].
  exists sent. split; [exact Hsent|]. split.
  - rewrite history_record, Hhist. unfold asked, verified.
    rewrite !history_record, <- !app_assoc. reflexivity.
  - destruct Hsent as [->|[req ->]]; repeat constructor.
Qed.

(** C2, amended.  On the leader, every operation that passes its gate
    ([SetProjectConfig] alone has one: a project that is there and that the
    admin manager accepts) builds a command of its kind that carries the
    caller's payload, and, when that command marshals without error, hands
    the bytes to [Apply] with timeout 0, once, and returns what [Apply]
    answers. *)
Theorem leader_submits_command (token : string) (m : mutation) (s : state) :
  raft_VerifyLeader (history (record EvLock s)) = None ->
  gateOpen m s ->
  exists c,
    builds m c
    /\ (snd (json_Marshal_RaftCommand c) = None -> submits token m s c).
Proof.
  intros Hverify Hgate.
  destruct (isSetProject m) eqn:Hkind.
  - destruct m; try discriminate Hkind.
    destruct Hgate as [Hsome Haccept].
    destruct project as [p|]; [|congruence].
    exists {| model.Kind := utils.RaftCommandSet;
              model.Static := None; model.Operation := None;
              model.Project := Some p; model.Deploy := None;
              model.ID := config.ID p |}.
    split; [split; reflexivity|]. intros Hmarshal.
    exists [EvLock; EvVerifyLeader;
            EvValidateSyncOperation (projectConfig (mgr s)) (Some p)].
    unfold perform. rewrite (SetProjectConfig_leader _ _ _ Hverify).
    cbv zeta. rewrite Haccept.
    match goal with
    | H : snd ?call = None |- _ =>
        destruct call as [data merr]; cbn [snd] in H; subst merr
    end.
    cbn [fst snd]. split; [repeat constructor|].
    unfold verified. rewrite !history_record, <- !app_assoc.
    split; reflexivity.
  - destruct (perform_leader token m s Hverify Hkind)
      as [c [Hk [Hc Hrun]]].
    exists c. split; [split; assumption|]. intros _.
    exists [EvLock; EvVerifyLeader]. rewrite Hrun. cbn [fst snd].
    split; [repeat constructor|].
    unfold verified. rewrite !history_record, <- !app_assoc.
    split; reflexivity.
Qed.

(** C3.  On the leader, [SetProjectConfig] asks the admin manager about the
    current document and the proposed project right after the leadership
    check, before anything else, and never again; if the answer is no, it
    returns the error [Please upgrade your instance], calls [Apply] not at
    all, and leaves the manager as it was. *)
Theorem SetProjectConfig_validates_first (token : string)
    (project : option config.Project) (s : state) :
  raft_VerifyLeader (history (record EvLock s)) = None ->
  let consulted :=
    EvValidateSyncOperation (projectConfig (mgr s)) project in
  (exists later,
      history (snd (SetProjectConfig token project s))
      = history s ++ [EvLock; EvVerifyLeader; consulted] ++ later
      /\ Forall (fun e => forall current proposed,
                    e <> EvValidateSyncOperation current proposed) later)
  /\ (adminMan_ValidateSyncOperation (history (verified s))
        (projectConfig (mgr s)) project = false ->
      fst (SetProjectConfig token project s)
      = Done (Some "Please upgrade your instance")
      /\ mgr (snd (SetProjectConfig token project s)) = mgr s
      /\ history (snd (SetProjectConfig token project s))
         = history s ++ [EvLock; EvVerifyLeader; consulted; EvUnlock]).
Proof.
  intros Hverify consulted.
  rewrite (SetProjectConfig_leader _ _ _ Hverify). cbv zeta.
  fold consulted. split.
  - destruct (adminMan_ValidateSyncOperation _ _ _).
    + destruct project as [p|].
      * destruct (json_Marshal_RaftCommand _) as [data [err|]];
          cbn [fst snd]; unfold verified;
          rewrite !history_record, <- !app_assoc;
          eexists; (split; [reflexivity|]); repeat constructor;
          discriminate.
      * cbn [fst snd]; unfold verified.
        rewrite !history_record, <- !app_assoc.
        eexists; (split; [reflexivity|]); repeat constructor; discriminate.
    + cbn [fst snd]; unfold verified.
      rewrite !history_record, <- !app_assoc.
      eexists; (split; [reflexivity|]); repeat constructor; discriminate.
  - intros ->. cbn [fst snd]. split; [reflexivity|]. split; [reflexivity|].
    unfold verified. rewrite !history_record, <- !app_assoc. reflexivity.
Qed.

(** C5, at the input where it fails.  The five operations other than
    [SetProjectConfig] do not look at the error of [json.Marshal]: when
    marshalling the command fails, the leader still calls [Apply], with the
    bytes that came back beside the error, and returns what [Apply]
    answers. *)
Theorem marshal_error_dropped (token : string) (m : mutation) (s : state) :
  raft_VerifyLeader (history (record EvLock s)) = None ->
  isSetProject m = false ->
  exists c,
    builds m c
    /\ forall data e,
        json_Marshal_RaftCommand c = (data, Some e) ->
        fst (perform token m s)
        = Done (raft_Apply (history (verified s)) data 0)
        /\ history (snd (perform token m s))
           = history s ++ [EvLock; EvVerifyLeader; EvApply data 0; EvUnlock].
Proof.
  intros Hverify Hkind.
  destruct (perform_leader token m s Hverify Hkind) as [c [Hk [Hc Hrun]]].
  exists c. split; [split; assumption|]. intros data e Hmarshal.
  rewrite Hrun, Hmarshal. cbn [fst snd]. split; [reflexivity|].
  unfold verified. rewrite !history_record, <- !app_assoc. reflexivity.
Qed.

(** ** Claims about [makeRequest] *)

(** What [makeRequest] does with a response it has received. *)
Lemma makeRequest_response (method token url : string) (b : bytes)
    (s : state) (resp : http.Response) (m : gmap string jvalue) :
  NewRequest_check method url = None ->
  client_Do (history s) (requestOf method token url b) = inl resp ->
  json_Decode (http.RespBody resp) = inl m ->
  makeRequest method token url (Some b) s
  = if (http.StatusCode resp =? 200)%Z
    then (Done None, record (EvDo (requestOf method token url b)) s)
    else match m !! "error" with
         | Some (JString msg) =>
             (Done (Some msg),
              record (EvDo (requestOf method token url b)) s)
         | _ => (Panicked interfaceConversion,
                 record (EvDo (requestOf method token url b)) s)
         end.
Proof.
  intros Hcheck Hdo Hdecode.
  unfold makeRequest, bind, http_NewRequest, Do, call, ret.
  rewrite Hcheck.
  change (http.Header_Add _ _ _) with (requestOf method token url b).
  cbn [history]. rewrite Hdo, Hdecode. unfold http.StatusOK.
  destruct (http.StatusCode resp =? 200)%Z; cbn [negb]; [reflexivity|].
  unfold assert_string, ret, panic.
  destruct (m !! "error") as [[]|]; reflexivity.
Qed.

(** C9, at the input where it fails.  A response with a status other than
    200 whose body decodes to an object without a string under [error]
    makes [makeRequest] panic in the type assertion: it returns no error
    value at all. *)
Theorem makeRequest_panics_without_error_string (method token url : string)
    (b : bytes) (s : state) (resp : http.Response)
    (m : gmap string jvalue) :
  NewRequest_check method url = None ->
  client_Do (history s) (requestOf method token url b) = inl resp ->
  http.StatusCode resp <> 200%Z ->
  json_Decode (http.RespBody resp) = inl m ->
  (forall msg, m !! "error" <> Some (JString msg)) ->
  makeRequest method token url (Some b) s
  = (Panicked interfaceConversion,
     record (EvDo (requestOf method token url b)) s).
Proof.
  intros Hcheck Hdo Hstatus Hdecode Hmissing.
  rewrite (makeRequest_response _ _ _ _ _ _ _ Hcheck Hdo Hdecode).
  destruct (Z.eqb_spec (http.StatusCode resp) 200) as [Heq|_];
    [contradiction|].
  destruct (m !! "error") as [[| | |msg| |]|] eqn:Hfield; try reflexivity.
  exfalso. exact (Hmissing msg eq_refl).
Qed.

(** C10.  A response with status 200 whose body decodes as a JSON object
    makes [makeRequest] return the nil error, whatever the object holds:
    the [error] field is not looked at. *)
Theorem makeRequest_ok_ignores_body (method token url : string)
    (b : bytes) (s : state) (resp : http.Response)
    (m : gmap string jvalue) :
  NewRequest_check method url = None ->
  client_Do (history s) (requestOf method token url b) = inl resp ->
  http.StatusCode resp = 200%Z ->
  json_Decode (http.RespBody resp) = inl m ->
  fst (makeRequest method token url (Some b) s) = Done None.
Proof.
  intros Hcheck Hdo Hstatus Hdecode.
  rewrite (makeRequest_response _ _ _ _ _ _ _ Hcheck Hdo Hdecode).
  rewrite Hstatus. reflexivity.
Qed.

(** C4, at the input where it fails.  A follower's [DeleteConfig] calls
    [makeRequest] with the method DELETE, the URL
    [http://H:4122/v1/api/config/<projectID>] (H the leader address before
    its first colon) and a nil buffer; once the URL is accepted,
    [http.NewRequest] dereferences the nil buffer and the operation panics.
    No request is sent. *)
Theorem DeleteConfig_not_leader_panics (token projectID : string)
    (s : state) (e : error) :
  raft_VerifyLeader (history (record EvLock s)) = Some e ->
  NewRequest_check "DELETE"
    ("http://" +:+ leaderHost s +:+ ":4122/v1/api/config/" +:+ projectID)
  = None ->
  fst (DeleteConfig token projectID s) = Panicked nilDereference
  /\ history (snd (DeleteConfig token projectID s))
     = history s ++ [EvLock; EvVerifyLeader; EvLeader; EvUnlock].
Proof.
  intros Hverify Hcheck.
  change (DeleteConfig token projectID s)
    with (perform token (MDeleteConfig projectID) s).
  rewrite (perform_not_leader _ _ _ _ Hverify).
  cbn [forwardMethod forwardBody]. unfold forwardURL. cbn [forwardPath].
  unfold makeRequest, bind, http_NewRequest. rewrite Hcheck.
  cbn [fst snd panic]. split; [reflexivity|].
  unfold asked, verified. rewrite !history_record, <- !app_assoc.
  reflexivity.
Qed.

(** ** Claims about [GetConfig] *)

(** The loop neither reads nor writes the state. *)
Lemma rangeProjects_pure (projectID : string)
    (ps : list (option config.Project)) (s s' : state) :
  rangeProjects projectID ps s' = (fst (rangeProjects projectID ps s), s').
Proof.
  induction ps as [|[p|] ps IH]; cbn [rangeProjects]; try reflexivity.
  destruct (String.eqb projectID (config.ID p)); [reflexivity|exact IH].
Qed.

(** On a slice without nil pointers the loop returns the first project of
    the requested identifier, or the not-found error if there is none. *)
Lemma rangeProjects_first (projectID : string)
    (ps : list (option config.Project)) (s : state) :
  Forall (fun p => p <> None) ps ->
  (exists front q back,
      ps = front ++ Some q :: back
      /\ config.ID q = projectID
      /\ (forall p, In (Some p) front -> config.ID p <> projectID)
      /\ fst (rangeProjects projectID ps s) = Done (Some q, None))
  \/ ((forall p, In (Some p) ps -> config.ID p <> projectID)
      /\ fst (rangeProjects projectID ps s) = Done notPresent).
Proof.
  induction 1 as [|[p|] ps Hp Hps IH]; cbn [rangeProjects].
  - right. split; [intros p []|reflexivity].
  - destruct (String.eqb_spec projectID (config.ID p)) as [Heq|Hne].
    + left. exists [], p, ps. repeat split; [congruence|intros q []].
    + destruct IH as [[front [q [back [-> [Hid [Hfront Hrun]]]]]]|[Hnone Hrun]].
      * left. exists (Some p :: front), q, back.
        repeat split; [exact Hid| |exact Hrun].
        intros p' [Hin|Hin]; [congruence|exact (Hfront _ Hin)].
      * right. split; [|exact Hrun].
        intros p' [Hin|Hin]; [congruence|exact (Hnone _ Hin)].
  - congruence.
Qed.

Lemma GetConfig_run (projectID : string) (s : state) :
  GetConfig projectID s
  = (match projectConfig (mgr s) with
     | None => Panicked nilDereference
     | Some conf =>
         fst (rangeProjects projectID (config.Projects conf) s)
     end,
     record EvUnlock (record EvLock s)).
Proof.
  unfold GetConfig, locked, bind, get_projectConfig.
  cbn [mgr record]. destruct (projectConfig (mgr s)) as [conf|].
  - rewrite (rangeProjects_pure _ _ s). reflexivity.
  - reflexivity.
Qed.

(** C6.  On a document that is set and whose project pointers are not nil,
    [GetConfig] returns a project of the requested identifier if the
    collection has one (the first such), and the not-found error otherwise;
    it leaves the manager as it was, and a second call right after the
    first, like any call made while the manager is the same, returns the
    same. *)
Theorem GetConfig_first_match (projectID : string) (s : state)
    (conf : config.Config) :
  projectConfig (mgr s) = Some conf ->
  populated conf ->
  ((exists p, In (Some p) (config.Projects conf)
              /\ config.ID p = projectID) ->
   exists front q back,
     config.Projects conf = front ++ Some q :: back
     /\ config.ID q = projectID
     /\ (forall p, In (Some p) front -> config.ID p <> projectID)
     /\ fst (GetConfig projectID s) = Done (Some q, None))
  /\ ((forall p, In (Some p) (config.Projects conf) ->
                 config.ID p <> projectID) ->
      fst (GetConfig projectID s) = Done notPresent)
  /\ mgr (snd (GetConfig projectID s)) = mgr s
  /\ fst (GetConfig projectID (snd (GetConfig projectID s)))
     = fst (GetConfig projectID s)
  /\ (forall s', mgr s' = mgr s ->
       fst (GetConfig projectID s') = fst (GetConfig projectID s)).
Proof.
  intros Hconf Hpop.
  assert (Hsame : forall s', mgr s' = mgr s ->
            fst (GetConfig projectID s') = fst (GetConfig projectID s)).
  { intros s' Hmgr. rewrite !GetConfig_run. cbn [fst]. rewrite Hmgr, Hconf.
    rewrite (rangeProjects_pure _ _ s). reflexivity. }
  revert Hsame. rewrite !GetConfig_run. cbn [fst snd mgr record].
  rewrite Hconf. intros Hsame.
  destruct (rangeProjects_first projectID (config.Projects conf) s Hpop)
    as [[front [q [back [Hsplit [Hid [Hfront Hrun]]]]]]|[Hnone Hrun]].
  - split; [|split; [|split; [|split]]].
    + intros _. exists front, q, back. auto.
    + intros Hnone. exfalso. apply (Hnone q); [|exact Hid].
      rewrite Hsplit. apply in_or_app. right. left. reflexivity.
    + reflexivity.
    + rewrite (rangeProjects_pure _ _ s). reflexivity.
    + exact Hsame.
  - split; [|split; [|split; [|split]]].
    + intros [p [Hin Hid]]. exfalso. exact (Hnone p Hin Hid).
    + intros _. exact Hrun.
    + reflexivity.
    + rewrite (rangeProjects_pure _ _ s). reflexivity.
    + exact Hsame.
Qed.

(** ** Claims about [StoreConfigToFile] *)

(** C7.  [StoreConfigToFile] writes the YAML marshalling of the document
    when the path ends in [.yaml] and the JSON marshalling when it ends in
    [.json] (or returns the marshalling error); for any other path it logs
    and returns the error [Invalid config file type (<path>) provided] and
    writes no file. *)
Theorem StoreConfigToFile_by_suffix (conf : option config.Config)
    (path : string) (s : state) :
  (endsWith path ".yaml" ->
   StoreConfigToFile conf path s
   = match yaml_Marshal_Config conf with
     | (_, Some e) => (Done (Some e), s)
     | (data, None) =>
         (Done (ioutil_WriteFile (history s) path data 420),
          record (EvWriteFile path data 420) s)
     end)
  /\ (endsWith path ".json" ->
      StoreConfigToFile conf path s
      = match json_Marshal_Config conf with
        | (_, Some e) => (Done (Some e), s)
        | (data, None) =>
            (Done (ioutil_WriteFile (history s) path data 420),
             record (EvWriteFile path data 420) s)
        end)
  /\ (~ endsWith path ".yaml" -> ~ endsWith path ".json" ->
      StoreConfigToFile conf path s
      = (Done (Some (invalidFileType path)),
         record (EvLogError (invalidFileType path)) s)).
Proof.
  unfold StoreConfigToFile. repeat split.
  - intros Hyaml. apply HasSuffix_endsWith in Hyaml. rewrite Hyaml.
    unfold writeMarshalled.
    destruct (yaml_Marshal_Config conf) as [data [e|]]; reflexivity.
  - intros Hjson. apply HasSuffix_endsWith in Hjson.
    rewrite (HasSuffix_exclusive path ".json" ".yaml") by
      (reflexivity || discriminate || assumption).
    rewrite Hjson. unfold writeMarshalled.
    destruct (json_Marshal_Config conf) as [data [e|]]; reflexivity.
  - intros Hyaml Hjson.
    destruct (strings_HasSuffix path ".yaml") eqn:Hy.
    { exfalso. apply Hyaml, HasSuffix_endsWith, Hy. }
    destruct (strings_HasSuffix path ".json") eqn:Hj.
    { exfalso. apply Hjson, HasSuffix_endsWith, Hj. }
    reflexivity.
Qed.

End Properties.

(** * Runs on the concrete cluster *)

Section Runs.
Import Scenario.
#[local] Existing Instance types.

Example Split_leader_address :
  strings_Split "10.0.0.5:7000" ":" = ["10.0.0.5"; "7000"]
  /\ strings_Split "localhost" ":" = ["localhost"]
  /\ strings_Split "" ":" = [""].
Proof. repeat split; reflexivity. Qed.

Example HasSuffix_paths :
  strings_HasSuffix "conf.yaml" ".yaml" = true
  /\ strings_HasSuffix "conf.json" ".yaml" = false
  /\ strings_HasSuffix "yaml" ".yaml" = false
  /\ strings_HasSuffix "out.txt" ".json" = false.
Proof. repeat split; reflexivity. Qed.

(** A follower forwards [SetDeployConfig]; the leader answers 404 with the
    body [{"error":"not found"}]. *)
Example follower_forwards_deploy :
  @perform types (library None) (follower notFound) "tok" setDeployX start
  = (Done (Some "not found"),
     {| mgr := mgr start;
        history :=
          [EvLock; EvVerifyLeader; EvLeader;
           EvDo {| http.Method := "POST";
                   http.URL := "http://10.0.0.5:4122/v1/api/config/deploy";
                   http.Header := [("Authorization", "Bearer tok")];
                   http.Body := text "deployX" |};
           EvUnlock] |}).
Proof. reflexivity. Qed.

(** A leader is asked to set the deploy configuration. *)
Example leader_applies_deploy :
  @perform types (library None) (leader true) "tok" setDeployX start
  = (Done None,
     {| mgr := mgr start;
        history :=
          [EvLock; EvVerifyLeader;
           EvApply (text "set-deploy|||deployX|") 0;
           EvUnlock] |}).
Proof. reflexivity. Qed.

(** [SetGlobalConfig] is the one operation that assigns to the manager. *)
Example SetGlobalConfig_overwrites :
  mgr (snd (@SetGlobalConfig types (Some [Some project2]) start))
  = {| projectConfig := Some [Some project2] |}
  /\ fst (@GetConfig types "proj1"
            (snd (@SetGlobalConfig types (Some [Some project2]) start)))
     = Done notPresent.
Proof. split; reflexivity. Qed.

Lemma not_leader_only_forwards_witness :
  fst (@perform types (library None) (follower notFound) "tok"
         setDeployX start)
  = Done (Some "not found")
  /\ mgr (snd (@perform types (library None) (follower notFound) "tok"
                 setDeployX start))
     = mgr start.
Proof.
  destruct (@not_leader_only_forwards types (library None)
              (follower notFound) "tok" setDeployX start
              "node is not the leader" eq_refl)
    as [Hresult [Hmgr _]].
  split; [rewrite Hresult; reflexivity|exact Hmgr].
Defined.

(** C2 as stated fails: on a leader whose admin manager says no,
    [SetProjectConfig] submits no command to [Apply]. *)
Lemma rejected_project_not_submitted :
  @raft_VerifyLeader types (leader false) (history (record EvLock start))
  = None
  /\ ~ exists c,
        @builds types setProject1 c
        /\ @submits types (library None) (leader false) "tok" setProject1
             start c.
Proof.
  split; [reflexivity|].
  intros [c [_ [before [_ [Hhistory _]]]]].
  set (h := history _) in Hhistory at 1. vm_compute in h. subst h.
  apply (f_equal (@List.rev _)) in Hhistory.
  rewrite !rev_app_distr in Hhistory. cbn [List.rev app] in Hhistory.
  discriminate Hhistory.
Qed.

Lemma leader_submits_command_witness :
  exists c,
    @builds types setProject1 c
    /\ @submits types (library None) (leader true) "tok" setProject1
         start c.
Proof.
  destruct (@leader_submits_command types (library None) (leader true)
              "tok" setProject1 start eq_refl)
    as [c [Hbuilds Hsubmits]].
  - split; [discriminate|reflexivity].
  - exists c. split; [exact Hbuilds|]. apply Hsubmits. reflexivity.
Defined.

Lemma SetProjectConfig_validates_first_witness :
  fst (@SetProjectConfig types (library None) (leader false) "tok"
         (Some project1) start)
  = Done (Some "Please upgrade your instance")
  /\ mgr (snd (@SetProjectConfig types (library None) (leader false) "tok"
                 (Some project1) start))
     = mgr start.
Proof.
  destruct (@SetProjectConfig_validates_first types (library None)
              (leader false) "tok" (Some project1) start eq_refl)
    as [_ Hrejected].
  destruct (Hrejected eq_refl) as [Hresult [Hmgr _]].
  split; [exact Hresult|exact Hmgr].
Defined.

(** The serialization error is lost: the caller sees success. *)
Lemma marshal_error_dropped_witness :
  fst (@perform types (library (Some "json: unsupported value"))
         (leader true) "tok" setRoutes start)
  = Done None.
Proof.
  destruct (@marshal_error_dropped types
              (library (Some "json: unsupported value")) (leader true)
              "tok" setRoutes start eq_refl eq_refl)
    as [c [_ Hdropped]].
  destruct (Hdropped [] "json: unsupported value" eq_refl) as [Hresult _].
  rewrite Hresult. reflexivity.
Defined.

Lemma makeRequest_panics_without_error_string_witness :
  fst (@makeRequest types (library None) (follower unavailable)
         "POST" "tok" "http://10.0.0.5:4122/v1/api/config/deploy"
         (Some (text "deployX")) start)
  = Panicked interfaceConversion.
Proof.
  rewrite (@makeRequest_panics_without_error_string types (library None)
             (follower unavailable) "POST" "tok"
             "http://10.0.0.5:4122/v1/api/config/deploy" (text "deployX")
             start
             {| http.StatusCode := 500; http.RespBody := bodyEmptyObject |}
             ∅ eq_refl eq_refl).
  - reflexivity.
  - discriminate.
  - reflexivity.
  - intros msg. rewrite lookup_empty. discriminate.
Defined.

Lemma makeRequest_ok_ignores_body_witness :
  @json_Decode types (library None) bodyNotFound
  = inl {[ "error" := JString "not found" ]}
  /\ fst (@makeRequest types (library None) (follower okWithError)
            "POST" "tok" "http://10.0.0.5:4122/v1/api/config/deploy"
            (Some (text "deployX")) start)
     = Done None.
Proof.
  split; [reflexivity|].
  apply (@makeRequest_ok_ignores_body types (library None)
           (follower okWithError) "POST" "tok"
           "http://10.0.0.5:4122/v1/api/config/deploy" (text "deployX")
           start
           {| http.StatusCode := 200; http.RespBody := bodyNotFound |}
           {[ "error" := JString "not found" ]});
    reflexivity.
Defined.

(** The scenario of the spec: the leader is at [10.0.0.5:7000] and a
    follower is asked to delete [proj1]. *)
Lemma DeleteConfig_not_leader_panics_witness :
  @forwardURL types (@leaderHost types (follower notFound) start)
    (@MDeleteConfig types "proj1")
  = "http://10.0.0.5:4122/v1/api/config/proj1"
  /\ fst (@DeleteConfig types (library None) (follower notFound) "tok"
            "proj1" start)
     = Panicked nilDereference
  /\ history (snd (@DeleteConfig types (library None) (follower notFound)
                     "tok" "proj1" start))
     = [EvLock; EvVerifyLeader; EvLeader; EvUnlock].
Proof.
  split; [reflexivity|].
  exact (@DeleteConfig_not_leader_panics types (library None)
           (follower notFound) "tok" "proj1" start
           "node is not the leader" eq_refl eq_refl).
Defined.

Lemma GetConfig_first_match_witness :
  exists q,
    fst (@GetConfig types "proj2" start) = Done (Some q, None)
    /\ pid q = "proj2".
Proof.
  destruct (@GetConfig_first_match types "proj2" start
              [Some project1; Some project2] eq_refl)
    as [Hfound _].
  - repeat constructor; discriminate.
  - destruct Hfound as [front [q [back [_ [Hid [_ Hresult]]]]]].
    + exists project2. split; [right; left|]; reflexivity.
    + exists q. split; [exact Hresult|exact Hid].
Defined.

Lemma StoreConfigToFile_by_suffix_witness :
  @StoreConfigToFile types (library None) (leader true) None "out.txt" start
  = (Done (Some "Invalid config file type (out.txt) provided"),
     record (EvLogError "Invalid config file type (out.txt) provided")
       start).
Proof.
  destruct (@StoreConfigToFile_by_suffix types (library None) (leader true)
              None "out.txt" start) as [_ [_ Hother]].
  apply Hother; intros Hends; apply HasSuffix_endsWith in Hends;
    discriminate Hends.
Defined.

End Runs.

(** * Further properties of the operations *)

(** Unfolds an operation down to the calls it makes. *)
Ltac unfold_ops :=
  unfold perform, SetStaticConfig, AddInternalRoutes, SetOperationModeConfig,
    SetProjectConfig, SetDeployConfig, DeleteConfig, locked, bind,
    VerifyLeader, Leader, Apply, ValidateSyncOperation, call,
    get_projectConfig.

(** Takes the leader branch, given that [VerifyLeader] reported no error. *)
Ltac leader_branch Hverify :=
  rewrite !Hverify; cbn [bool_decide decide_rel];
  rewrite !bool_decide_eq_false_2 by (intros H; apply H; reflexivity).

(** Closes a goal about the shape of a run once the run is a chain of
    [record]s over [verified s]: [mid] is what lies between the leadership
    check and the unlock. *)
Ltac close_shape mid :=
  exists mid; cbn [fst snd mgr record]; unfold verified;
  rewrite !history_record, <- !app_assoc;
  split; [reflexivity|];
  split; [repeat constructor|];
  split; [cbv; lia|reflexivity].

Section Further.
Context `{T : config.Types} {L : Library} {C : Collaborators}.

(** ** The shape of a run *)

(** A leader's run: the lock, the leadership check, at most one question to
    the admin manager, at most one [Apply], the unlock. *)
Lemma perform_leader_shape (token : string) (m : mutation) (s : state) :
  raft_VerifyLeader (history (record EvLock s)) = None ->
  exists mid,
    history (snd (perform token m s))
    = history s ++ [EvLock; EvVerifyLeader] ++ mid ++ [EvUnlock]
    /\ Forall (fun e => leaderStep e = true) mid
    /\ length (filter (fun e => isApply e) mid) <= 1
    /\ mgr (snd (perform token m s)) = mgr s.
Proof.
  intros Hverify. destruct (isSetProject m) eqn:Hkind.
  - destruct m; try discriminate Hkind. unfold perform.
    rewrite (SetProjectConfig_leader _ _ _ Hverify). cbv zeta.
    pose (consulted :=
            EvValidateSyncOperation (projectConfig (mgr s)) project).
    destruct (adminMan_ValidateSyncOperation _ _ _).
    + destruct project as [p|].
      * destruct (json_Marshal_RaftCommand _) as [data [err|]].
        -- close_shape [consulted].
        -- close_shape [consulted; EvApply data 0].
      * close_shape [consulted].
    + close_shape [consulted].
  - destruct (perform_leader token m s Hverify Hkind) as [c [_ [_ Hrun]]].
    rewrite Hrun.
    close_shape [EvApply (fst (json_Marshal_RaftCommand c)) 0].
Qed.

Lemma leaderStep_not_lock (mid : list event) :
  Forall (fun e => leaderStep e = true) mid ->
  Forall (fun e => isLockEvent e = false) mid.
Proof.
  apply List.Forall_impl. intros e He. destruct e; try discriminate He; reflexivity.
Qed.

Lemma leaderStep_not_forward (mid : list event) :
  Forall (fun e => leaderStep e = true) mid ->
  Forall (fun e => isForwardEvent e = false) mid.
Proof.
  apply List.Forall_impl. intros e He. destruct e; try discriminate He; reflexivity.
Qed.

(** Any run of a mutation operation: the lock first, the unlock last, no
    lock event in between, the manager untouched. *)
Lemma perform_shape (token : string) (m : mutation) (s : state) :
  exists mid,
    history (snd (perform token m s))
    = history s ++ EvLock :: mid ++ [EvUnlock]
    /\ Forall (fun e => isLockEvent e = false) mid
    /\ mgr (snd (perform token m s)) = mgr s.
Proof.
  destruct (raft_VerifyLeader (history (record EvLock s))) as [e|] eqn:Hverify.
  - rewrite (perform_not_leader token m s e Hverify). cbn [snd].
    destruct (makeRequest_frame (forwardMethod m) token
                (forwardURL (leaderHost s) m) (forwardBody m) (asked s))
      as [Hmgr [sent [Hhist Hsent]]].
    exists ([EvVerifyLeader; EvLeader] ++ sent).
    split; [|split; [|exact Hmgr]].
    + rewrite history_record, Hhist. unfold asked, verified.
      rewrite !history_record, <- !app_assoc. reflexivity.
    + destruct Hsent as [->|[req ->]]; repeat constructor.
  - destruct (perform_leader_shape token m s Hverify)
      as [mid [Hhist [Hsteps [_ Hmgr]]]].
    exists (EvVerifyLeader :: mid). split; [exact Hhist|].
    split; [|exact Hmgr].
    constructor; [reflexivity|]. exact (leaderStep_not_lock _ Hsteps).
Qed.

(** ** What the mutation operations keep and never do *)

(** X1.  No mutation operation assigns to the manager, on any path: follower
    or leader, accepted or rejected, returning or panicking. *)
Theorem mutation_leaves_manager (token : string) (m : mutation) (s : state) :
  mgr (snd (perform token m s)) = mgr s.
Proof.
  destruct (perform_shape token m s) as [mid [_ [_ Hmgr]]]. exact Hmgr.
Qed.


(** X3.  Every mutation operation takes the lock first and releases it last,
    once each, on every path, a panic included; so does [GetConfig], which
    does nothing else that is recorded. *)
Theorem lock_released_on_every_exit (token projectID : string)
    (m : mutation) (s : state) :
  (exists mid,
      history (snd (perform token m s))
      = history s ++ EvLock :: mid ++ [EvUnlock]
      /\ Forall (fun e => isLockEvent e = false) mid)
  /\ history (snd (GetConfig projectID s)) = history s ++ [EvLock; EvUnlock].
Proof.
  split.
  - destruct (perform_shape token m s) as [mid [Hhist [Hmid _]]].
    exists mid. split; assumption.
  - rewrite GetConfig_run. cbn [snd].
    rewrite !history_record, <- !app_assoc. reflexivity.
Qed.

(** X4.  A leader never forwards: between the leadership check and the
    unlock it neither asks for the leader nor sends a request, and it calls
    [Apply] at most once, with timeout 0. *)
Theorem leader_never_forwards (token : string) (m : mutation) (s : state) :
  raft_VerifyLeader (history (record EvLock s)) = None ->
  exists mid,
    history (snd (perform token m s))
    = history s ++ [EvLock; EvVerifyLeader] ++ mid ++ [EvUnlock]
    /\ Forall (fun e => isForwardEvent e = false) mid
    /\ length (filter (fun e => isApply e) mid) <= 1
    /\ (forall data timeout, In (EvApply data timeout) mid -> timeout = 0%Z).
Proof.
  intros Hverify.
  destruct (perform_leader_shape token m s Hverify)
    as [mid [Hhist [Hsteps [Hone _]]]].
  exists mid. split; [exact Hhist|].
  split; [exact (leaderStep_not_forward _ Hsteps)|]. split; [exact Hone|].
  intros data timeout Hin. rewrite List.Forall_forall in Hsteps.
  specialize (Hsteps _ Hin). cbn [leaderStep] in Hsteps.
  apply Z.eqb_eq. exact Hsteps.
Qed.

(** X5.  A leader makes no use of the caller's token: the run is the same
    for every token. *)
Theorem leader_ignores_token (token token' : string) (m : mutation)
    (s : state) :
  raft_VerifyLeader (history (record EvLock s)) = None ->
  perform token m s = perform token' m s.
Proof.
  intros Hverify. destruct m; unfold_ops; cbn [history record];
    cbn [history record] in Hverify; leader_branch Hverify; reflexivity.
Qed.

(** X6.  A leader's run panics in one case only: [SetProjectConfig] given a
    nil project that the admin manager accepts.  Every other run on a leader
    returns. *)
Theorem leader_panics_only_on_nil_project (token : string) (m : mutation)
    (s : state) :
  raft_VerifyLeader (history (record EvLock s)) = None ->
  (exists msg, fst (perform token m s) = Panicked msg)
  <-> (m = MSetProjectConfig None
       /\ adminMan_ValidateSyncOperation (history (verified s))
            (projectConfig (mgr s)) None = true).
Proof.
  intros Hverify. destruct (isSetProject m) eqn:Hkind.
  - destruct m; try discriminate Hkind. unfold perform.
    rewrite (SetProjectConfig_leader _ _ _ Hverify). cbv zeta.
    destruct project as [p|].
    + split.
      * intros [msg Hpanic].
        destruct (adminMan_ValidateSyncOperation _ _ _);
          [|discriminate Hpanic].
        destruct (json_Marshal_RaftCommand _) as [data [err|]];
          discriminate Hpanic.
      * intros [Heq _]. discriminate Heq.
    + destruct (adminMan_ValidateSyncOperation _ _ _).
      * split; [intros _; split; reflexivity|].
        intros _. exists nilDereference. reflexivity.
      * split; [intros [msg Hpanic]; discriminate Hpanic|].
        intros [_ Hfalse]. discriminate Hfalse.
  - destruct (perform_leader token m s Hverify Hkind) as [c [_ [_ Hrun]]].
    rewrite Hrun. cbn [fst]. split.
    + intros [msg Hpanic]. discriminate Hpanic.
    + intros [-> _]. discriminate Hkind.
Qed.

(** X7.  On a leader, when the admin manager accepts the project but the
    command does not marshal, [SetProjectConfig] returns the marshalling
    error and calls [Apply] not at all. *)
Theorem SetProjectConfig_marshal_error (token : string) (p : config.Project)
    (s : state) (data : bytes) (e : error) :
  raft_VerifyLeader (history (record EvLock s)) = None ->
  adminMan_ValidateSyncOperation (history (verified s))
    (projectConfig (mgr s)) (Some p) = true ->
  json_Marshal_RaftCommand (projectCommand p) = (data, Some e) ->
  fst (SetProjectConfig token (Some p) s) = Done (Some e)
  /\ history (snd (SetProjectConfig token (Some p) s))
     = history s
       ++ [EvLock; EvVerifyLeader;
           EvValidateSyncOperation (projectConfig (mgr s)) (Some p);
           EvUnlock].
Proof.
  intros Hverify Haccept Hmarshal.
  rewrite (SetProjectConfig_leader _ _ _ Hverify). cbv zeta.
  rewrite Haccept. fold (projectCommand p). rewrite Hmarshal.
  cbn [fst snd]. split; [reflexivity|].
  unfold verified. rewrite !history_record, <- !app_assoc. reflexivity.
Qed.

(** ** [makeRequest], error by error *)

(** [makeRequest] on a buffer, case by case. *)
Lemma makeRequest_cases (method token url : string) (b : bytes) (s : state) :
  makeRequest method token url (Some b) s
  = match NewRequest_check method url with
    | Some err => (Done (Some err), s)
    | None =>
        let req := requestOf method token url b in
        match client_Do (history s) req with
        | inr err => (Done (Some err), record (EvDo req) s)
        | inl resp =>
            match json_Decode (http.RespBody resp) with
            | inr err => (Done (Some err), record (EvDo req) s)
            | inl m =>
                if (http.StatusCode resp =? 200)%Z
                then (Done None, record (EvDo req) s)
                else match m !! "error" with
                     | Some (JString msg) =>
                         (Done (Some msg), record (EvDo req) s)
                     | _ => (Panicked interfaceConversion,
                             record (EvDo req) s)
                     end
            end
        end
    end.
Proof.
  unfold makeRequest, bind, http_NewRequest, Do, call, ret.
  destruct (NewRequest_check method url) as [err|]; [reflexivity|].
  change (http.Header_Add _ _ _) with (requestOf method token url b).
  cbv zeta. cbn [history].
  destruct (client_Do _ _) as [resp|err]; [|reflexivity].
  destruct (json_Decode _) as [m|err]; [|reflexivity].
  unfold http.StatusOK.
  destruct (http.StatusCode resp =? 200)%Z; cbn [negb]; [reflexivity|].
  unfold assert_string, ret, panic.
  destruct (m !! "error") as [[]|]; reflexivity.
Qed.

(** X8.  When [http.NewRequest] rejects the method or the URL,
    [makeRequest] returns that error and nothing is sent or recorded; this
    holds for a nil buffer too, since the validation comes first. *)
Theorem makeRequest_rejected_request (method token url : string)
    (data : option bytes) (s : state) (err : error) :
  NewRequest_check method url = Some err ->
  makeRequest method token url data s = (Done (Some err), s).
Proof.
  intros Hcheck. unfold makeRequest, bind, http_NewRequest, ret.
  rewrite Hcheck. reflexivity.
Qed.

(** X9.  When the HTTP client fails, [makeRequest] returns the client's
    error; the one request was sent and the answer is not decoded. *)
Theorem makeRequest_transport_error (method token url : string) (b : bytes)
    (s : state) (err : error) :
  NewRequest_check method url = None ->
  client_Do (history s) (requestOf method token url b) = inr err ->
  makeRequest method token url (Some b) s
  = (Done (Some err), record (EvDo (requestOf method token url b)) s).
Proof.
  intros Hcheck Hdo. rewrite makeRequest_cases, Hcheck. cbv zeta.
  rewrite Hdo. reflexivity.
Qed.

(** X10.  A response whose body does not decode makes [makeRequest] return
    the decoding error, whatever the status: a 200 with such a body is a
    failure, and a failure status with such a body does not reach the type
    assertion. *)
Theorem makeRequest_undecodable_body (method token url : string) (b : bytes)
    (s : state) (resp : http.Response) (err : error) :
  NewRequest_check method url = None ->
  client_Do (history s) (requestOf method token url b) = inl resp ->
  json_Decode (http.RespBody resp) = inr err ->
  makeRequest method token url (Some b) s
  = (Done (Some err), record (EvDo (requestOf method token url b)) s).
Proof.
  intros Hcheck Hdo Hdecode. rewrite makeRequest_cases, Hcheck. cbv zeta.
  rewrite Hdo, Hdecode. reflexivity.
Qed.

(** X11.  A response with a status other than 200 whose body is an object
    with a string under [error] makes [makeRequest] return an error with
    exactly that string as its message. *)
Theorem makeRequest_error_message (method token url : string) (b : bytes)
    (s : state) (resp : http.Response) (m : gmap string jvalue)
    (msg : string) :
  NewRequest_check method url = None ->
  client_Do (history s) (requestOf method token url b) = inl resp ->
  http.StatusCode resp <> 200%Z ->
  json_Decode (http.RespBody resp) = inl m ->
  m !! "error" = Some (JString msg) ->
  makeRequest method token url (Some b) s
  = (Done (Some msg), record (EvDo (requestOf method token url b)) s).
Proof.
  intros Hcheck Hdo Hstatus Hdecode Hfield.
  rewrite makeRequest_cases, Hcheck. cbv zeta. rewrite Hdo, Hdecode, Hfield.
  destruct (Z.eqb_spec (http.StatusCode resp) 200) as [Heq|_];
    [contradiction|reflexivity].
Qed.

(** ** What a follower sends *)

Lemma forwardBody_POST (m : mutation) (b : bytes) :
  forwardBody m = Some b -> forwardMethod m = "POST".
Proof. destruct m; [reflexivity..|discriminate]. Qed.

(** X12.  A follower's run of one of the five operations with a payload
    sends exactly one request, once the URL is accepted: a POST to
    [http://H:4122/v1/api/config/<path>] with the bearer token as only header
    and the marshalled payload as body.  H is the leader address cut at its
    first colon: it holds no colon, and the address is H or H, a colon and a
    rest. *)
Theorem follower_post_request (token : string) (m : mutation) (s : state)
    (e : error) (b : bytes) :
  raft_VerifyLeader (history (record EvLock s)) = Some e ->
  forwardBody m = Some b ->
  NewRequest_check "POST" (forwardURL (leaderHost s) m) = None ->
  history (snd (perform token m s))
  = history s
    ++ [EvLock; EvVerifyLeader; EvLeader;
        EvDo (requestOf "POST" token (forwardURL (leaderHost s) m) b);
        EvUnlock]
  /\ ~ In ":"%char (list_ascii_of_string (leaderHost s))
  /\ (raft_Leader (history (verified s)) = leaderHost s
      \/ exists rest,
           raft_Leader (history (verified s))
           = leaderHost s +:+ ":" +:+ rest).
Proof.
  intros Hverify Hbody Hcheck.
  split; [|split; [apply beforeColon_no_colon|apply beforeColon_prefix]].
  rewrite (perform_not_leader token m s e Hverify). cbn [snd].
  rewrite Hbody, (forwardBody_POST m b Hbody), makeRequest_cases, Hcheck.
  cbv zeta.
  destruct (client_Do _ _) as [resp|err].
  2:{ cbn [snd]. unfold asked, verified.
      rewrite !history_record, <- !app_assoc. reflexivity. }
  destruct (json_Decode _) as [obj|err].
  2:{ cbn [snd]. unfold asked, verified.
      rewrite !history_record, <- !app_assoc. reflexivity. }
  destruct (http.StatusCode resp =? 200)%Z.
  { cbn [snd]. unfold asked, verified.
    rewrite !history_record, <- !app_assoc. reflexivity. }
  destruct (obj !! "error") as [[]|]; cbn [snd]; unfold asked, verified;
    rewrite !history_record, <- !app_assoc; reflexivity.
Qed.

(** X13.  A follower's run of one of the five operations with a payload can
    panic in one place only, the type assertion on the [error] field, and
    only after a response with a status other than 200. *)
Theorem follower_post_panics_only_in_assertion (token : string)
    (m : mutation) (s : state) (e : error) (b : bytes) (msg : string) :
  raft_VerifyLeader (history (record EvLock s)) = Some e ->
  forwardBody m = Some b ->
  fst (perform token m s) = Panicked msg ->
  msg = interfaceConversion
  /\ exists resp,
       client_Do (history (asked s))
         (requestOf "POST" token (forwardURL (leaderHost s) m) b)
       = inl resp
       /\ http.StatusCode resp <> 200%Z.
Proof.
  intros Hverify Hbody.
  rewrite (perform_not_leader token m s e Hverify). cbn [fst].
  rewrite Hbody, (forwardBody_POST m b Hbody), makeRequest_cases.
  destruct (NewRequest_check _ _); [discriminate|]. cbv zeta.
  destruct (client_Do _ _) as [resp|err]; [|discriminate].
  destruct (json_Decode _) as [obj|err]; [|discriminate].
  destruct (Z.eqb_spec (http.StatusCode resp) 200) as [Heq|Hne];
    [discriminate|].
  assert (Hdone : interfaceConversion = interfaceConversion
                  /\ exists resp',
                       @inl http.Response error resp = inl resp'
                       /\ http.StatusCode resp' <> 200%Z).
  { split; [reflexivity|]. exists resp. split; [reflexivity|exact Hne]. }
  destruct (obj !! "error") as [[]|]; intros Hpanic;
    try discriminate Hpanic; injection Hpanic as <-; exact Hdone.
Qed.

(** X19.  A follower's [DeleteConfig] never reaches the leader: no request
    is sent on any run.  It returns the error of [http.NewRequest] when the
    URL is refused and panics on the nil buffer otherwise. *)
Theorem DeleteConfig_follower_never_sends (token projectID : string)
    (s : state) (e : error) :
  raft_VerifyLeader (history (record EvLock s)) = Some e ->
  history (snd (DeleteConfig token projectID s))
  = history s ++ [EvLock; EvVerifyLeader; EvLeader; EvUnlock]
  /\ fst (DeleteConfig token projectID s)
     = match NewRequest_check "DELETE"
               (forwardURL (leaderHost s) (MDeleteConfig projectID)) with
       | Some err => Done (Some err)
       | None => Panicked nilDereference
       end.
Proof.
  intros Hverify.
  change (DeleteConfig token projectID s)
    with (perform token (MDeleteConfig projectID) s).
  rewrite (perform_not_leader _ _ _ _ Hverify).
  cbn [forwardMethod forwardBody fst snd].
  unfold makeRequest, bind, http_NewRequest, ret, panic.
  destruct (NewRequest_check _ _) as [err|]; cbn [fst snd];
    unfold asked, verified; rewrite !history_record, <- !app_assoc;
    split; reflexivity.
Qed.

(** ** [GetConfig] at the edges *)

Lemma rangeProjects_skip (projectID : string)
    (front rest : list (option config.Project)) (s : state) :
  Forall (steppedOver projectID) front ->
  rangeProjects projectID (front ++ rest) s = rangeProjects projectID rest s.
Proof.
  induction 1 as [|p front [project [-> Hne]] _ IH]; [reflexivity|].
  cbn [app rangeProjects].
  destruct (String.eqb_spec projectID (config.ID project)) as [Heq|_];
    [congruence|exact IH].
Qed.

(** X14.  [GetConfig] stops at the first project of the requested
    identifier: whatever follows it in the collection (a second project of
    the same identifier, a nil pointer) has no effect on the result. *)
Theorem GetConfig_stops_at_first_match (projectID : string) (s : state)
    (conf : config.Config) (front back : list (option config.Project))
    (q : config.Project) :
  projectConfig (mgr s) = Some conf ->
  config.Projects conf = front ++ Some q :: back ->
  Forall (steppedOver projectID) front ->
  config.ID q = projectID ->
  fst (GetConfig projectID s) = Done (Some q, None).
Proof.
  intros Hconf Hsplit Hfront Hid.
  rewrite GetConfig_run, Hconf, Hsplit. cbn [fst].
  rewrite (rangeProjects_skip _ _ _ _ Hfront). cbn [rangeProjects].
  rewrite <- Hid, String.eqb_refl. reflexivity.
Qed.

(** X15.  [GetConfig] does not turn a nil pointer into an error: when the
    document was never set, or when the loop meets a nil project before a
    match, the call panics; the lock is released all the same. *)
Theorem GetConfig_nil_panics (projectID : string) (s : state) :
  (projectConfig (mgr s) = None
   \/ exists conf front back,
        projectConfig (mgr s) = Some conf
        /\ config.Projects conf = front ++ None :: back
        /\ Forall (steppedOver projectID) front) ->
  GetConfig projectID s
  = (Panicked nilDereference, record EvUnlock (record EvLock s)).
Proof.
  intros [Hnil|[conf [front [back [Hconf [Hsplit Hfront]]]]]];
    rewrite GetConfig_run.
  - rewrite Hnil. reflexivity.
  - rewrite Hconf, Hsplit, (rangeProjects_skip _ _ _ _ Hfront). reflexivity.
Qed.

(** ** The global accessors *)

(** X16.  [GetGlobalConfig] after [SetGlobalConfig] returns the pointer that
    was stored, nil included, whatever the manager held before; the first
    takes the write lock, the second the read lock. *)
Theorem GlobalConfig_round_trip (c : option config.Config) (s : state) :
  fst (GetGlobalConfig (snd (SetGlobalConfig c s))) = Done c
  /\ history (snd (GetGlobalConfig (snd (SetGlobalConfig c s))))
     = history s ++ [EvLock; EvUnlock; EvRLock; EvRUnlock].
Proof.
  split; [reflexivity|].
  unfold GetGlobalConfig, SetGlobalConfig, rlocked, bind, emit,
    set_projectConfig, get_projectConfig, record.
  cbn [fst snd history mgr]. rewrite <- !app_assoc. reflexivity.
Qed.

(** X17.  [SetGlobalConfig] overwrites, it does not merge: what [GetConfig]
    answers afterwards depends on the new document alone, not on the state
    before the call. *)
Theorem SetGlobalConfig_replaces_document (c : option config.Config)
    (projectID : string) (s s' : state) :
  fst (GetConfig projectID (snd (SetGlobalConfig c s)))
  = fst (GetConfig projectID (snd (SetGlobalConfig c s'))).
Proof.
  rewrite !GetConfig_run. cbn [fst].
  change (mgr (snd (SetGlobalConfig c s))) with {| projectConfig := c |}.
  change (mgr (snd (SetGlobalConfig c s'))) with {| projectConfig := c |}.
  cbn [projectConfig]. destruct c as [conf|]; [|reflexivity].
  rewrite (rangeProjects_pure _ _ (snd (SetGlobalConfig (Some conf) s'))).
  reflexivity.
Qed.

End Further.

(** ** [strings.Split] and [strings.Join] *)

Lemma concat_cons (sep x : string) (l : list string) :
  l <> [] -> String.concat sep (x :: l) = x +:+ sep +:+ String.concat sep l.
Proof. destruct l; [congruence|reflexivity]. Qed.

Lemma concat_push (sep : string) (c : ascii) (piece : string)
    (pieces : list string) :
  String.concat sep (String c piece :: pieces)
  = String c (String.concat sep (piece :: pieces)).
Proof. destruct pieces; reflexivity. Qed.

Lemma prefix_dropString (s1 s2 : string) :
  String.prefix s1 s2 = true -> s2 = s1 +:+ dropString (String.length s1) s2.
Proof.
  revert s2. induction s1 as [|a s1 IH]; intros s2 Hprefix.
  - reflexivity.
  - destruct s2 as [|b s2]; [discriminate Hprefix|].
    change (String.prefix (String a s1) (String b s2))
      with (if Ascii.ascii_dec a b then String.prefix s1 s2 else false)
      in Hprefix.
    destruct (Ascii.ascii_dec a b) as [->|]; [|discriminate Hprefix].
    rewrite append_cons. cbn [String.length dropString].
    rewrite <- (IH s2 Hprefix). reflexivity.
Qed.

Lemma Join_split_from (sep : string) (skip : nat) (s : string) :
  sep <> EmptyString ->
  String.concat sep (split_from sep skip s) = dropString skip s.
Proof.
  intros Hsep. revert skip. induction s as [|c s IH]; intros skip.
  - destruct skip; reflexivity.
  - destruct skip as [|k]; [|exact (IH k)].
    rewrite split_from_cons.
    destruct (String.prefix sep (String c s)) eqn:Hprefix.
    + rewrite concat_cons by apply split_from_nonempty.
      rewrite IH. apply prefix_dropString in Hprefix.
      destruct sep as [|a sep]; [congruence|].
      cbn [String.length dropString Nat.sub] in Hprefix |- *.
      rewrite Nat.sub_0_r. cbn [dropString]. symmetry. exact Hprefix.
    + specialize (IH 0). cbn [dropString] in IH |- *.
      destruct (split_from sep 0 s) as [|piece pieces] eqn:Hsplit.
      * exfalso. exact (split_from_nonempty sep 0 s Hsplit).
      * rewrite concat_push, IH. reflexivity.
Qed.

(** X18.  Joining the pieces of a split with the separator gives the string
    back, for every string and every non-empty separator: the split loses
    nothing of the leader address. *)
Theorem Join_Split (s sep : string) :
  sep <> EmptyString ->
  String.concat sep (strings_Split s sep) = s.
Proof. intros Hsep. exact (Join_split_from sep 0 s Hsep). Qed.

(** * Further runs on the concrete cluster *)

Module Edges.
Import Scenario.

(** The library of the scenario, with a URL check that refuses blanks. *)
Definition pickyLibrary : @Library types :=
  @Build_Library types
    (@json_Marshal_Static types (library None))
    (@json_Marshal_OperationConfig types (library None))
    (@json_Marshal_Project types (library None))
    (@json_Marshal_Deploy types (library None))
    (@json_Marshal_RaftCommand types (library None))
    (@json_Marshal_Config types (library None))
    (@yaml_Marshal_Config types (library None))
    (@json_Decode types (library None))
    (fun _ url =>
       if existsb (Ascii.eqb " ") (list_ascii_of_string url)
       then Some "invalid character in URL"
       else None).

(** The leader cannot be reached. *)
Definition refused : http.Response + error := inr "connection refused".

(** The leader answers 502 with a body that is no JSON. *)
Definition garbled : http.Response + error :=
  inl {| http.StatusCode := 502; http.RespBody := text "<html>" |}.

(** A 404 whose body is [{"error":"not found"}]. *)
Definition response404 : http.Response :=
  {| http.StatusCode := 404; http.RespBody := bodyNotFound |}.

(** A manager whose document was never set. *)
Definition unset : @state types :=
  @Build_state types (@Build_SyncManager types None) [].

(** A document with a second [proj2] and a nil pointer behind the first. *)
Definition project2bis : project := {| pid := "proj2"; secret := "other" |}.

Definition crowded : @state types :=
  @Build_state types
    (@Build_SyncManager types
       (Some [Some project1; Some project2; None; Some project2bis])) [].

(** A document with a nil pointer before [proj2]. *)
Definition holed : @state types :=
  @Build_state types
    (@Build_SyncManager types (Some [Some project1; None; Some project2])) [].

Definition setNoProject : @mutation types := @MSetProjectConfig types None.

Definition deployURL : string := "http://10.0.0.5:4122/v1/api/config/deploy".

End Edges.

Section FurtherRuns.
Import Scenario Edges.
#[local] Existing Instance types.

Lemma leader_never_forwards_witness :
  exists mid,
    history (snd (@perform types (library None) (leader true) "tok"
                    setProject1 start))
    = [EvLock; EvVerifyLeader] ++ mid ++ [EvUnlock]
    /\ Forall (fun e => isForwardEvent e = false) mid.
Proof.
  destruct (@leader_never_forwards types (library None) (leader true) "tok"
              setProject1 start eq_refl)
    as [mid [Hhist [Hquiet _]]].
  exists mid. split; [exact Hhist|exact Hquiet].
Defined.

Lemma leader_ignores_token_witness :
  @perform types (library None) (leader true) "tok" setDeployX start
  = @perform types (library None) (leader true) "another" setDeployX start.
Proof.
  exact (@leader_ignores_token types (library None) (leader true)
           "tok" "another" setDeployX start eq_refl).
Defined.

Lemma leader_panics_only_on_nil_project_witness :
  exists msg,
    fst (@perform types (library None) (leader true) "tok" setNoProject start)
    = Panicked msg.
Proof.
  apply (@leader_panics_only_on_nil_project types (library None)
           (leader true) "tok" setNoProject start eq_refl).
  split; reflexivity.
Defined.

Lemma SetProjectConfig_marshal_error_witness :
  fst (@SetProjectConfig types (library (Some "json: unsupported value"))
         (leader true) "tok" (Some project1) start)
  = Done (Some "json: unsupported value").
Proof.
  exact (proj1 (@SetProjectConfig_marshal_error types
                  (library (Some "json: unsupported value")) (leader true)
                  "tok" project1 start [] "json: unsupported value"
                  eq_refl eq_refl eq_refl)).
Defined.

Lemma makeRequest_rejected_request_witness :
  @makeRequest types pickyLibrary (follower notFound) "DELETE" "tok"
    "http://10.0.0.5:4122/v1/api/config/my project" None start
  = (Done (Some "invalid character in URL"), start).
Proof.
  exact (@makeRequest_rejected_request types pickyLibrary (follower notFound)
           "DELETE" "tok" "http://10.0.0.5:4122/v1/api/config/my project"
           None start "invalid character in URL" eq_refl).
Defined.

Lemma makeRequest_transport_error_witness :
  fst (@makeRequest types (library None) (follower refused) "POST" "tok"
         deployURL (Some (text "deployX")) start)
  = Done (Some "connection refused").
Proof.
  rewrite (@makeRequest_transport_error types (library None)
             (follower refused) "POST" "tok" deployURL (text "deployX") start
             "connection refused" eq_refl eq_refl).
  reflexivity.
Defined.

Lemma makeRequest_undecodable_body_witness :
  fst (@makeRequest types (library None) (follower garbled) "POST" "tok"
         deployURL (Some (text "deployX")) start)
  = Done (Some "invalid character looking for beginning of value").
Proof.
  rewrite (@makeRequest_undecodable_body types (library None)
             (follower garbled) "POST" "tok" deployURL (text "deployX") start
             {| http.StatusCode := 502; http.RespBody := text "<html>" |}
             "invalid character looking for beginning of value"
             eq_refl eq_refl eq_refl).
  reflexivity.
Defined.

Lemma makeRequest_error_message_witness :
  fst (@makeRequest types (library None) (follower notFound) "POST" "tok"
         deployURL (Some (text "deployX")) start)
  = Done (Some "not found").
Proof.
  rewrite (@makeRequest_error_message types (library None)
             (follower notFound) "POST" "tok" deployURL (text "deployX") start
             response404 {[ "error" := JString "not found" ]} "not found"
             eq_refl eq_refl).
  - reflexivity.
  - discriminate.
  - reflexivity.
  - reflexivity.
Defined.

Lemma follower_post_request_witness :
  history (snd (@perform types (library None) (follower notFound) "tok"
                  setDeployX start))
  = [EvLock; EvVerifyLeader; EvLeader;
     EvDo {| http.Method := "POST"; http.URL := deployURL;
             http.Header := [("Authorization", "Bearer tok")];
             http.Body := text "deployX" |};
     EvUnlock].
Proof.
  exact (proj1 (@follower_post_request types (library None)
                  (follower notFound) "tok" setDeployX start
                  "node is not the leader" (text "deployX")
                  eq_refl eq_refl eq_refl)).
Defined.

Lemma follower_post_panics_only_in_assertion_witness :
  fst (@perform types (library None) (follower unavailable) "tok"
         setDeployX start)
  = Panicked interfaceConversion
  /\ exists resp,
       unavailable = inl resp /\ http.StatusCode resp <> 200%Z.
Proof.
  split; [reflexivity|].
  exact (proj2 (@follower_post_panics_only_in_assertion types (library None)
                  (follower unavailable) "tok" setDeployX start
                  "node is not the leader" (text "deployX")
                  interfaceConversion eq_refl eq_refl eq_refl)).
Defined.

Lemma DeleteConfig_follower_never_sends_witness :
  history (snd (@DeleteConfig types pickyLibrary (follower notFound) "tok"
                  "my project" start))
  = [EvLock; EvVerifyLeader; EvLeader; EvUnlock]
  /\ fst (@DeleteConfig types pickyLibrary (follower notFound) "tok"
            "my project" start)
     = Done (Some "invalid character in URL").
Proof.
  exact (@DeleteConfig_follower_never_sends types pickyLibrary
           (follower notFound) "tok" "my project" start
           "node is not the leader" eq_refl).
Defined.

Lemma GetConfig_stops_at_first_match_witness :
  fst (@GetConfig types "proj2" crowded) = Done (Some project2, None).
Proof.
  apply (@GetConfig_stops_at_first_match types "proj2" crowded
           [Some project1; Some project2; None; Some project2bis]
           [Some project1] [None; Some project2bis] project2);
    try reflexivity.
  constructor; [|constructor].
  exists project1. split; [reflexivity|discriminate].
Defined.

Lemma GetConfig_nil_panics_witness :
  fst (@GetConfig types "proj2" unset) = Panicked nilDereference
  /\ fst (@GetConfig types "proj2" holed) = Panicked nilDereference.
Proof.
  split.
  - rewrite (@GetConfig_nil_panics types "proj2" unset); [reflexivity|].
    left. reflexivity.
  - rewrite (@GetConfig_nil_panics types "proj2" holed); [reflexivity|].
    right. exists [Some project1; None; Some project2], [Some project1],
      [Some project2].
    split; [reflexivity|]. split; [reflexivity|].
    constructor; [|constructor].
    exists project1. split; [reflexivity|discriminate].
Defined.

Lemma Join_Split_witness :
  String.concat ":" (strings_Split "10.0.0.5:7000" ":") = "10.0.0.5:7000".
Proof. apply Join_Split. discriminate. Defined.

End FurtherRuns.
